(** * Campaign-finance routes of the Agora congressional-data application

    Shallow embedding of the two route handlers that serve campaign-finance
    data, [app/api/funding/route.ts] (search, analytics, top-donors, bulk
    POST) and [app/api/members/[id]/funding/route.ts] (per-member funding),
    together with the part of [@/lib/campaign-finance-parser] they call.

    JavaScript numbers are modelled as exact rationals ([Q]), extended with
    the three non-finite values where a division can produce them; the
    rounding of IEEE doubles and the sign of zero are not modelled. *)

From Stdlib Require Import QArith Lqa ZArith String Ascii Sorted Permutation.
From stdpp Require Import gmap strings list.

Open Scope Q_scope.

(** ** Numbers *)

Inductive number : Type :=
| Finite (q : Q)
| PosInfinity
| NegInfinity
| NaN.

Definition isFinite (x : number) : bool :=
  match x with Finite _ => true | _ => false end.

(** [Math.max(a, b)] on finite arguments. *)
Definition Math_max (a b : Q) : Q := if Qle_bool a b then b else a.

(** [a / b] on finite arguments: a zero divisor gives NaN or an infinity. *)
Definition ndiv (a b : Q) : number :=
  if Qeq_bool b 0 then
    (if Qeq_bool a 0 then NaN
     else if Qle_bool 0 a then PosInfinity else NegInfinity)
  else Finite (a / b).

(** [x * k] for a finite constant [k]. *)
Definition nmul (x : number) (k : Q) : number :=
  match x with
  | Finite q => Finite (q * k)
  | NaN => NaN
  | PosInfinity =>
      if Qeq_bool k 0 then NaN else if Qle_bool 0 k then PosInfinity else NegInfinity
  | NegInfinity =>
      if Qeq_bool k 0 then NaN else if Qle_bool 0 k then NegInfinity else PosInfinity
  end.

(** [x > k] for a finite constant [k]; every comparison with NaN is false. *)
Definition ngtb (x : number) (k : Q) : bool :=
  match x with
  | Finite q => negb (Qle_bool q k)
  | PosInfinity => true
  | NegInfinity | NaN => false
  end.

(** ** FinancialRecord *)

(** Modelled from the spec: the record type of [@/lib/campaign-finance-parser]
    is not among the sources.  The fields the routes read keep the names the
    routes use ([candidateName], [party], [state], [district], [cycleNumber],
    [totalReceipts], [individualContributions], [pacContributions],
    [candidateContributions], [candidateLoans], [totalDisbursements],
    [endingCash], [coverageEndDate]); the others follow section 3 of the
    specification.  Every numeric field is a finite number. *)
Record FinancialRecord : Type := {
  candidateId : string;
  candidateName : string;
  party : string;
  incumbentStatus : string;
  state : string;
  district : string;
  office : string;
  cycleNumber : Q;
  totalReceipts : Q;
  individualContributions : Q;
  partyContributions : Q;
  pacContributions : Q;
  candidateContributions : Q;
  candidateLoans : Q;
  otherLoans : Q;
  transfersFromAuthorized : Q;
  totalLoans : Q;
  totalDisbursements : Q;
  transfersToAuthorized : Q;
  beginningCash : Q;
  endingCash : Q;
  totalDebt : Q;
  coverageStartDate : string;
  coverageEndDate : string
}.

(** A record with the given identity and receipts and every other field
    blank or zero; the worked examples below are built from it. *)
Definition filing (name st : string)
    (receipts transfersIn indiv pacs self : Q) : FinancialRecord :=
  {| candidateId := ""; candidateName := name; party := "";
     incumbentStatus := ""; state := st; district := ""; office := "";
     cycleNumber := 0;
     totalReceipts := receipts; individualContributions := indiv;
     partyContributions := 0; pacContributions := pacs;
     candidateContributions := self; candidateLoans := 0; otherLoans := 0;
     transfersFromAuthorized := transfersIn; totalLoans := 0;
     totalDisbursements := 0; transfersToAuthorized := 0;
     beginningCash := 0; endingCash := 0; totalDebt := 0;
     coverageStartDate := ""; coverageEndDate := "" |}.

(** ** Analytics engine *)

Record FundingSource : Type := { amount : Q; percentage : number }.

Module Sources.
Record t : Type := {
  individual : FundingSource;
  pac : FundingSource;
  party : FundingSource;
  candidate : FundingSource;
  other : FundingSource
}.
End Sources.

Record Expenditures : Type := { adjustedTotal : Q; efficiency : number }.

Record FinancialHealth : Type := {
  cashOnHand : Q;
  debt : Q;
  netPosition : Q;
  burnRate : number
}.

Record TransferActivity : Type := {
  hasDoubleCountingIssue : bool;
  transfersIn : Q;
  transfersOut : Q
}.

Record FundingAnalytics : Type := {
  totalFunding : Q;
  adjustedTotalReceipts : Q;
  adjustedTotalDisbursements : Q;
  fundingSources : Sources.t;
  expenditures : Expenditures;
  financialHealth : FinancialHealth;
  transferActivity : TransferActivity
}.

(** Modelled from the spec: the candidate category of section 4.3 is the
    personal contributions plus the candidate's loans. *)
Definition candidateAmount (r : FinancialRecord) : Q :=
  candidateContributions r + candidateLoans r.

(** Modelled from the spec: the sum of the four named categories of
    section 4.3, individual, PAC, party and candidate. *)
Definition namedAmount (r : FinancialRecord) : Q :=
  individualContributions r + pacContributions r + partyContributions r
  + candidateAmount r.

(** Modelled from the spec: [share amount total] is
    [amount / max(1, total) * 100] of section 4.3. *)
Definition share (amt total : Q) : number :=
  nmul (ndiv amt (Math_max 1 total)) 100.

(** Modelled from the spec: a funding source is an amount with its share of
    the adjusted receipts. *)
Definition source (amt total : Q) : FundingSource :=
  {| amount := amt; percentage := share amt total |}.

(** Modelled from the spec: [calculateFundingAnalytics] of
    [@/lib/campaign-finance-parser] is not among the sources.  Section 4.3:
    the transfer fields are subtracted once from the raw totals with a floor
    at zero, every share divides by [max(1, adjustedTotalReceipts)], and the
    member route's comment on [analytics.totalFunding] ("This is now the
    adjusted amount") fixes [totalFunding] as the adjusted receipts.  The
    field [transferActivity.netTransfers], which the specification does not
    define, is left out. *)
Definition calculateFundingAnalytics (r : FinancialRecord) : FundingAnalytics :=
  let tIn := transfersFromAuthorized r in
  let tOut := transfersToAuthorized r in
  let adjR := Math_max 0 (totalReceipts r - tIn) in
  let adjD := Math_max 0 (totalDisbursements r - tOut) in
  let otherAmount := Math_max 0 (adjR - namedAmount r) in
  {| totalFunding := adjR;
     adjustedTotalReceipts := adjR;
     adjustedTotalDisbursements := adjD;
     fundingSources :=
       {| Sources.individual := source (individualContributions r) adjR;
          Sources.pac := source (pacContributions r) adjR;
          Sources.party := source (partyContributions r) adjR;
          Sources.candidate := source (candidateAmount r) adjR;
          Sources.other := source otherAmount adjR |};
     expenditures :=
       {| adjustedTotal := adjD;
          efficiency := ndiv adjD (Math_max 1 adjR) |};
     financialHealth :=
       {| cashOnHand := endingCash r;
          debt := totalDebt r;
          netPosition := endingCash r - totalDebt r;
          burnRate := ndiv adjD (Math_max 1 adjR) |};
     transferActivity :=
       {| hasDoubleCountingIssue :=
            negb (Qle_bool tIn 0) || negb (Qle_bool tOut 0);
          transfersIn := tIn;
          transfersOut := tOut |} |}.

(** The value of a finite number. *)
Definition valueOf (x : number) : option Q :=
  match x with Finite q => Some q | _ => None end.

(** The five shares of an analytics result, in the order individual, PAC,
    party, candidate, other. *)
Definition percentages (a : FundingAnalytics) : list number :=
  let s := fundingSources a in
  [percentage (Sources.individual s); percentage (Sources.pac s);
   percentage (Sources.party s); percentage (Sources.candidate s);
   percentage (Sources.other s)].

(** ** The rest of the parser library *)

(** Modelled from the spec: [formatCurrency] and [formatPercentage] are the
    presentation helpers of [@/lib/campaign-finance-parser], which is not
    among the sources, and the specification gives only their signatures.
    A formatted value is kept as the helper applied to its argument. *)
Inductive formatted : Type :=
| formatCurrency (x : number)
| formatPercentage (x : number).

(** Modelled from the spec: [getContributorAnalysis] is not among the
    sources; its result is kept as the call on its record. *)
Inductive ContributorProfile : Type :=
| getContributorAnalysis (r : FinancialRecord).

(** The three remaining entry points the routes call.  [parseAllRecords]
    returns [None] when it throws; the two lookups are pure reads. *)
Class CampaignFinanceParser : Type := {
  parseAllRecords : string -> option (list FinancialRecord);
  findByCandidateName : list FinancialRecord -> string -> list FinancialRecord;
  findByLocation :
    list FinancialRecord -> string -> option string -> list FinancialRecord
}.

(** *** Batch parser *)

Fixpoint splitOn (sep : ascii) (s : string) : list string :=
  match s with
  | EmptyString => [EmptyString]
  | String c rest =>
      if Ascii.eqb c sep then EmptyString :: splitOn sep rest
      else match splitOn sep rest with
           | line :: lines => String c line :: lines
           | [] => [String c EmptyString]
           end
  end.

Definition isSpace (c : ascii) : bool :=
  Ascii.eqb c " " || Ascii.eqb c "009" || Ascii.eqb c "013".

Fixpoint isBlank (s : string) : bool :=
  match s with
  | EmptyString => true
  | String c rest => isSpace c && isBlank rest
  end.

(** Modelled from the spec: [parseAllRecords] of section 4.2, over a record
    decoder [decodeLine] that returns [None] for a decode failure.  The raw
    text is split on newlines, blank lines are dropped, every remaining
    line is decoded, and failures are skipped; order is the line order. *)
Definition parseLines (decodeLine : string -> option FinancialRecord)
    (raw : string) : list FinancialRecord :=
  omap decodeLine (List.filter (fun l => negb (isBlank l)) (splitOn "010" raw)).

(** *** Lookup *)

Definition lowerChar (c : ascii) : ascii :=
  let n := nat_of_ascii c in
  if (65 <=? n)%nat && (n <=? 90)%nat then ascii_of_nat (n + 32) else c.

Fixpoint lowerCase (s : string) : string :=
  match s with
  | EmptyString => EmptyString
  | String c rest => String (lowerChar c) (lowerCase rest)
  end.

Definition isWordChar (c : ascii) : bool :=
  let n := nat_of_ascii c in
  ((97 <=? n)%nat && (n <=? 122)%nat) || ((48 <=? n)%nat && (n <=? 57)%nat)
  || ((65 <=? n)%nat && (n <=? 90)%nat).

(** The words of a string: maximal runs of letters and digits. *)
Fixpoint words (cur : string) (s : string) : list string :=
  match s with
  | EmptyString => if String.eqb cur "" then [] else [cur]
  | String c rest =>
      if isWordChar c then words (cur ++ String c EmptyString)%string rest
      else if String.eqb cur "" then words "" rest
      else cur :: words "" rest
  end.

Definition includes (hay needle : string) : bool :=
  match String.index 0 needle hay with Some _ => true | None => false end.

(** Modelled from the spec: [findByCandidateName] of section 4.5.  Query and
    stored name are lower-cased and the query is cut into words, so that
    "Last, First" and "First Last" compare alike; a record matches when
    every word of the query occurs in its name.  Matches keep the order of
    the collection. *)
Definition nameMatches (query : string) (r : FinancialRecord) : bool :=
  forallb (includes (lowerCase (candidateName r))) (words "" (lowerCase query)).

(** Modelled from the spec: [findByCandidateName] returns all matches in
    the order of the collection. *)
Definition findByName (records : list FinancialRecord) (query : string)
    : list FinancialRecord :=
  List.filter (nameMatches query) records.

(** Modelled from the spec: [findByLocation] of section 4.5, exact match on
    the state and, when a district is given, on the district. *)
Definition findByPlace (records : list FinancialRecord) (st : string)
    (dist : option string) : list FinancialRecord :=
  List.filter
    (fun r => String.eqb (state r) st
              && match dist with
                 | Some d => String.eqb (district r) d
                 | None => true
                 end)
    records.

(** Modelled from the spec: the library of sections 4.2 and 4.5 over a
    record decoder; its [parseAllRecords] never throws. *)
Definition specParser (decodeLine : string -> option FinancialRecord)
    : CampaignFinanceParser :=
  {| parseAllRecords := fun raw => Some (parseLines decodeLine raw);
     findByCandidateName := findByName;
     findByLocation := findByPlace |}.

(** A decoder given by a table of lines, for worked examples. *)
Fixpoint decodeFrom (table : list (string * FinancialRecord)) (line : string)
    : option FinancialRecord :=
  match table with
  | [] => None
  | (l, r) :: rest => if String.eqb l line then Some r else decodeFrom rest line
  end.

(** ** Arrays *)

(** [Array.prototype.sort] with a comparator: the sort is stable, so with a
    consistent comparator the result is the one insertion sort builds.
    [cmp a b <= 0] keeps [a] before [b]. *)
Fixpoint insertBy {A : Type} (cmp : A -> A -> Q) (x : A) (l : list A) : list A :=
  match l with
  | [] => [x]
  | y :: rest =>
      if Qle_bool (cmp x y) 0 then x :: y :: rest
      else y :: insertBy cmp x rest
  end.

Definition sortBy {A : Type} (cmp : A -> A -> Q) (l : list A) : list A :=
  foldr (insertBy cmp) [] l.

(** The comparator [(a, b) => key(b) - key(a)]: descending by [key]. *)
Definition descending {A : Type} (key : A -> Q) (a b : A) : Q := key b - key a.

(** [slice(from, to)]. *)
Definition slice {A : Type} (from to : nat) (l : list A) : list A :=
  take (to - from) (drop from l).

(** [if (s)] on a query parameter: [null] and the empty string are falsy. *)
Definition truthy (s : option string) : bool :=
  match s with
  | Some v => negb (String.eqb v "")
  | None => false
  end.

(** What one call of a loader did with the outside world. *)
Inductive Event : Type :=
| ReadFile
| ParseAll (raw : string).

(** The number of [parseAllRecords] calls in a trace. *)
Definition parseCalls (evs : list Event) : nat :=
  length (List.filter (fun e => match e with ParseAll _ => true | _ => false end) evs).

(** ** The funding search route ([app/api/funding/route.ts]) *)

Module FundingRoute.

(** The handlers' outer [catch] (status 500) is not reached in this model:
    the loader catches its own failures and the library's lookups are
    total. *)

(** Arrays are objects: the cache and the value a request works on may be
    the same array, so arrays live in a store and are passed by address. *)
Record State : Type := {
  heap : gmap nat (list FinancialRecord);
  cachedFundingData : option nat;
  cacheTimestamp : Z
}.

Definition initial : State :=
  {| heap := ∅; cachedFundingData := None; cacheTimestamp := 0 |}.

Definition CACHE_DURATION : Z := 60 * 60 * 1000.

(** The array at an address. *)
Definition fetch (h : gmap nat (list FinancialRecord)) (a : nat)
    : list FinancialRecord :=
  default [] (h !! a).

(** A new array. *)
Definition alloc (h : gmap nat (list FinancialRecord)) (v : list FinancialRecord)
    : nat * gmap nat (list FinancialRecord) :=
  let a := fresh (dom h) in (a, <[a := v]> h).

Record Query : Type := {
  qCandidate : option string;
  qState : option string;
  qDistrict : option string;
  qType : option string
}.

Record Enriched : Type := {
  record : FinancialRecord;
  analytics : FundingAnalytics;
  contributorAnalysis : ContributorProfile
}.

Definition enrich (r : FinancialRecord) : Enriched :=
  {| record := r;
     analytics := calculateFundingAnalytics r;
     contributorAnalysis := getContributorAnalysis r |}.

Record TopFunded : Type := {
  tfName : string;
  tfParty : string;
  tfState : string;
  tfDistrict : string;
  tfTotalFunding : formatted;
  tfAnalytics : FundingAnalytics
}.

(** A row of the top-donors view.  [contributions] is the row's
    [pacContributions], [selfContributions] or [individualContributions];
    [percentageOfTotal] is its [pacPercentage], [selfPercentage] or
    [individualPercentage]. *)
Record DonorRow : Type := {
  rowName : string;
  rowParty : string;
  rowState : string;
  rowDistrict : string;
  contributions : formatted;
  percentageOfTotal : formatted
}.

Record Overview : Type := {
  totalCandidates : nat;
  overviewTotalFunding : formatted;
  averageFunding : formatted
}.

(** An entry of a breakdown object.  The accumulator of a breakdown is a
    plain object, so a key that names a function every object inherits
    does not start from zero: its entry is text, the source text of that
    function followed by [n] ones, and not a number.  The source text
    itself is not modelled. *)
Inductive Tally : Type :=
| Count (n : nat)
| SourceAndOnes (n : nat).

Inductive SearchQuery : Type :=
| ByCandidate (name : string)
| ByLocation (st : string) (dist : option string).

Inductive Body : Type :=
| ErrorBody (error : string) (records : option (list Enriched)) (total : option nat)
| SearchBody (query : SearchQuery) (records : list Enriched) (total : nat)
| AnalyticsBody (overview : Overview)
    (partyBreakdown stateBreakdown : gmap string Tally)
    (topFundedCandidates : list TopFunded)
| TopDonorsBody (highPacFunding selfFunded grassroots : list DonorRow).

Record Response : Type := { status : nat; body : Body }.

(** The numbers the top-donors view hands to [formatPercentage]. *)
Definition pacPercentage (r : FinancialRecord) : number :=
  nmul (ndiv (pacContributions r) (Math_max 1 (totalReceipts r))) 100.

Definition selfPercentage (r : FinancialRecord) : number :=
  nmul (ndiv (candidateContributions r + candidateLoans r)
             (Math_max 1 (totalReceipts r))) 100.

Definition individualPercentage (r : FinancialRecord) : number :=
  nmul (ndiv (individualContributions r) (Math_max 1 (totalReceipts r))) 100.

Definition highPacRow (r : FinancialRecord) : DonorRow :=
  {| rowName := candidateName r; rowParty := party r; rowState := state r;
     rowDistrict := district r;
     contributions := formatCurrency (Finite (pacContributions r));
     percentageOfTotal := formatPercentage (pacPercentage r) |}.

Definition selfFundedRow (r : FinancialRecord) : DonorRow :=
  {| rowName := candidateName r; rowParty := party r; rowState := state r;
     rowDistrict := district r;
     contributions :=
       formatCurrency (Finite (candidateContributions r + candidateLoans r));
     percentageOfTotal := formatPercentage (selfPercentage r) |}.

Definition grassrootsRow (r : FinancialRecord) : DonorRow :=
  {| rowName := candidateName r; rowParty := party r; rowState := state r;
     rowDistrict := district r;
     contributions := formatCurrency (Finite (individualContributions r));
     percentageOfTotal := formatPercentage (individualPercentage r) |}.

Definition highPacCandidates (fundingData : list FinancialRecord)
    : list FinancialRecord :=
  slice 0 20
    (sortBy (descending pacContributions)
       (List.filter (fun r => negb (Qle_bool (pacContributions r) 100000))
          fundingData)).

Definition selfFundedCandidates (fundingData : list FinancialRecord)
    : list FinancialRecord :=
  slice 0 20
    (sortBy (descending (fun r => candidateContributions r + candidateLoans r))
       (List.filter
          (fun r => negb (Qle_bool (candidateContributions r + candidateLoans r)
                            100000))
          fundingData)).

Definition grassrootsCandidates (fundingData : list FinancialRecord)
    : list FinancialRecord :=
  slice 0 20
    (sortBy (descending individualContributions)
       (List.filter (fun r => negb (Qle_bool (individualContributions r) 50000))
          fundingData)).

(** The functions an object literal inherits from [Object.prototype]. *)
Definition inheritedFunctions : list string :=
  ["constructor"; "hasOwnProperty"; "isPrototypeOf"; "propertyIsEnumerable";
   "toLocaleString"; "toString"; "valueOf"; "__defineGetter__";
   "__defineSetter__"; "__lookupGetter__"; "__lookupSetter__"]%string.

Definition inheritedFunction (k : string) : bool :=
  existsb (String.eqb k) inheritedFunctions.

(** [(acc[k] || 0) + 1], where [own] is the accumulator's own entry for
    [k].  An own number is incremented and an own text gets a one
    appended; without an own entry [acc[k]] is [undefined], and the sum is
    1, unless [k] names an inherited function, which is truthy and turns
    the sum into its source text followed by a one. *)
Definition bump (k : string) (own : option Tally) : Tally :=
  match own with
  | Some (Count n) => Count (S n)
  | Some (SourceAndOnes n) => SourceAndOnes (S n)
  | None => if inheritedFunction k then SourceAndOnes 1 else Count 1
  end.

(** [acc[k] = (acc[k] || 0) + 1].  Assigning to [__proto__] calls the
    inherited setter, which ignores a value that is not an object: the
    accumulator stays as it is. *)
Definition tally (k : string) (acc : gmap string Tally) : gmap string Tally :=
  if String.eqb k "__proto__" then acc else <[k := bump k (acc !! k)]> acc.

(** The [reduce] over the collection that builds a breakdown from [{}]. *)
Definition countBy (key : FinancialRecord -> string)
    (fundingData : list FinancialRecord) : gmap string Tally :=
  fold_left (fun acc r => tally (key r) acc) fundingData ∅.

Definition topFundedRow (r : FinancialRecord) : TopFunded :=
  {| tfName := candidateName r; tfParty := party r; tfState := state r;
     tfDistrict := district r;
     tfTotalFunding := formatCurrency (Finite (totalReceipts r));
     tfAnalytics := calculateFundingAnalytics r |}.

Record Result : Type := {
  resultName : string;
  found : bool;
  resultRecord : option Enriched
}.

Module Summary.
Record t : Type := { requested : nat; found : nat; missing : nat }.
End Summary.

Inductive BulkBody : Type :=
| BulkError (error : string)
| BulkResults (results : list Result) (summary : Summary.t).

Record BulkResponse : Type := { bulkStatus : nat; bulkBody : BulkBody }.

(** The [candidates] field of a POST body: absent, falsy or not an array,
    or an array of names.  The elements of the array are strings, as
    [findByCandidateName] takes them; a body that is not JSON is answered
    by the handler's [catch] and is not modelled. *)
Inductive Candidates : Type :=
| NotAnArray
| Names (names : list string).

Section Handlers.
Context `{CampaignFinanceParser}.

(** The [try] block of [loadFundingData] with its [catch]: [file] is the
    content of [weball26.txt], [None] when [readFileSync] throws.  The
    result is the address of the returned array; the array of the [catch]
    branch is a new, empty one. *)
Definition readAndParse (now : Z) (file : option string) (st : State)
    : nat * State * list Event :=
  match file with
  | None =>
      let '(a, h) := alloc (heap st) [] in
      (a, {| heap := h; cachedFundingData := cachedFundingData st;
             cacheTimestamp := cacheTimestamp st |}, [ReadFile])
  | Some rawData =>
      match parseAllRecords rawData with
      | None =>
          let '(a, h) := alloc (heap st) [] in
          (a, {| heap := h; cachedFundingData := cachedFundingData st;
                 cacheTimestamp := cacheTimestamp st |},
           [ReadFile; ParseAll rawData])
      | Some records =>
          let '(a, h) := alloc (heap st) records in
          (a, {| heap := h; cachedFundingData := Some a;
                 cacheTimestamp := now |},
           [ReadFile; ParseAll rawData])
      end
  end.

(** [loadFundingData]: [now] is the reading of [Date.now()]. *)
Definition loadFundingData (now : Z) (file : option string) (st : State)
    : nat * State * list Event :=
  match cachedFundingData st with
  | Some a =>
      if (now - cacheTimestamp st <? CACHE_DURATION)%Z then (a, st, [])
      else readAndParse now file st
  | None => readAndParse now file st
  end.

Definition searchType (q : Query) : string :=
  match qType q with
  | Some t => if String.eqb t "" then "search" else t
  | None => "search"
  end.

(** The [type=analytics] branch.  [sort] reorders the array at [a] itself
    before [slice] copies its first ten elements. *)
Definition analyticsView (a : nat) (st : State) : Response * State :=
  let fundingData := fetch (heap st) a in
  let totalRecords := length fundingData in
  let totalFunding :=
    fold_left (fun sum r => sum + totalReceipts r) fundingData 0 in
  let avgFunding := ndiv totalFunding (inject_Z (Z.of_nat totalRecords)) in
  let partyBreakdown := countBy party fundingData in
  let stateBreakdown := countBy state fundingData in
  let sorted := sortBy (descending totalReceipts) fundingData in
  ({| status := 200;
      body :=
        AnalyticsBody
          {| totalCandidates := totalRecords;
             overviewTotalFunding := formatCurrency (Finite totalFunding);
             averageFunding := formatCurrency avgFunding |}
          partyBreakdown stateBreakdown
          (topFundedRow <$> slice 0 10 sorted) |},
   {| heap := <[a := sorted]> (heap st);
      cachedFundingData := cachedFundingData st;
      cacheTimestamp := cacheTimestamp st |}).

Definition GET (q : Query) (now : Z) (file : option string) (st : State)
    : Response * State * list Event :=
  let '(a, st1, evs) := loadFundingData now file st in
  let fundingData := fetch (heap st1) a in
  if (length fundingData =? 0)%nat then
    ({| status := 404;
        body := ErrorBody "Campaign finance data not available"
                  (Some []) (Some 0%nat) |}, st1, evs)
  else if String.eqb (searchType q) "search" then
    if truthy (qCandidate q) then
      let candidateName := default "" (qCandidate q) in
      let enrichedRecords := enrich <$> findByCandidateName fundingData candidateName in
      ({| status := 200;
          body := SearchBody (ByCandidate candidateName) enrichedRecords
                    (length enrichedRecords) |}, st1, evs)
    else if truthy (qState q) then
      let state := default "" (qState q) in
      let enrichedRecords :=
        enrich <$> findByLocation fundingData state (qDistrict q) in
      ({| status := 200;
          body := SearchBody (ByLocation state (qDistrict q)) enrichedRecords
                    (length enrichedRecords) |}, st1, evs)
    else
      ({| status := 400;
          body := ErrorBody "Please provide candidate name or state parameter"
                    (Some []) (Some 0%nat) |}, st1, evs)
  else if String.eqb (searchType q) "analytics" then
    let '(resp, st2) := analyticsView a st1 in (resp, st2, evs)
  else if String.eqb (searchType q) "top-donors" then
    ({| status := 200;
        body := TopDonorsBody
                  (highPacRow <$> highPacCandidates fundingData)
                  (selfFundedRow <$> selfFundedCandidates fundingData)
                  (grassrootsRow <$> grassrootsCandidates fundingData) |},
     st1, evs)
  else
    ({| status := 400;
        body := ErrorBody
                  "Invalid type parameter. Use: search, analytics, or top-donors"
                  None None |}, st1, evs).

(** One turn of the POST loop. *)
Definition lookup (fundingData : list FinancialRecord) (candidateName : string)
    : Result :=
  match findByCandidateName fundingData candidateName with
  | r :: _ =>
      {| resultName := candidateName; found := true;
         resultRecord := Some (enrich r) |}
  | [] =>
      {| resultName := candidateName; found := false; resultRecord := None |}
  end.

Definition POST (candidates : Candidates) (now : Z) (file : option string)
    (st : State) : BulkResponse * State * list Event :=
  match candidates with
  | NotAnArray =>
      ({| bulkStatus := 400;
          bulkBody := BulkError "Candidates array required in request body" |},
       st, [])
  | Names names =>
      let '(a, st1, evs) := loadFundingData now file st in
      let fundingData := fetch (heap st1) a in
      let results := lookup fundingData <$> names in
      ({| bulkStatus := 200;
          bulkBody :=
            BulkResults results
              {| Summary.requested := length names;
                 Summary.found := length (List.filter found results);
                 Summary.missing :=
                   length (List.filter (fun r => negb (found r)) results) |} |},
       st1, evs)
  end.

End Handlers.

End FundingRoute.

(** ** The member funding route ([app/api/members/[id]/funding/route.ts]) *)

Module MemberRoute.

Definition CACHE_DURATION : Z := 30 * 60 * 1000.

(** A row of the [member] table, as far as the handler reads it. *)
Record Member : Type := {
  memberId : string;
  firstName : string;
  lastName : string;
  memberParty : string;
  memberState : string;
  chamber : string
}.

Record MemberInfo : Type := {
  infoId : string;
  infoName : string;
  infoParty : string;
  infoState : string;
  infoChamber : string
}.

Definition memberInfo (m : Member) : MemberInfo :=
  {| infoId := memberId m;
     infoName := (firstName m ++ " " ++ lastName m)%string;
     infoParty := memberParty m;
     infoState := memberState m;
     infoChamber := chamber m |}.

Module Summary.
Record t : Type := {
  totalRaised : Q;
  totalSpent : Q;
  cashOnHand : Q;
  debt : Q;
  netPosition : Q;
  coveragePeriod : string;
  hasTransferIssue : bool;
  transfersIn : Q;
  transfersOut : Q;
  adjustedAmount : bool;
  adjustedSpent : bool;
  rawTotalReceipts : Q;
  rawTotalDisbursements : Q
}.
End Summary.

Module Health.
Record t : Type := {
  efficiency : number;
  burnRate : number;
  debtRatio : number;
  healthStatus : string
}.
End Health.

Record Historical : Type := {
  cycle : Q;
  pastRaised : Q;
  pastSpent : Q;
  pastCashOnHand : Q
}.

(** [fundingAnalysis]; the constant [label] and [description] strings of
    the five sources are left out. *)
Record FundingAnalysis : Type := {
  summary : Summary.t;
  sources : Sources.t;
  influenceAnalysis : ContributorProfile;
  health : Health.t;
  historicalData : list Historical
}.

Inductive Body : Type :=
| MemberNotFound
| DataNotAvailable (member : MemberInfo)
| NoRecords (member : MemberInfo) (searchAttempts : list string)
| Funding (member : MemberInfo) (funding : FundingAnalysis)
    (rawRecord : FinancialRecord) (lastUpdated : Z).

Record Response : Type := { status : nat; body : Body }.

Record State : Type := {
  globalFundingData : option (list FinancialRecord);
  fundingCache : gmap string (Body * Z)
}.

Definition initial : State :=
  {| globalFundingData := None; fundingCache := ∅ |}.

Definition getFinancialHealthStatus (h : FinancialHealth) : string :=
  if negb (Qle_bool 0 (netPosition h)) then "Concerning"
  else if ngtb (burnRate h) (8 # 10) then "High Burn Rate"
  else if negb (Qle_bool (cashOnHand h) 100000) then "Well Funded"
  else if negb (Qle_bool (cashOnHand h) 50000) then "Adequate"
  else "Limited Resources".

Definition historicalEntry (r : FinancialRecord) : Historical :=
  {| cycle := cycleNumber r;
     pastRaised := totalReceipts r;
     pastSpent := totalDisbursements r;
     pastCashOnHand := endingCash r |}.

Definition fundingAnalysis (fundingRecords : list FinancialRecord)
    (primaryRecord : FinancialRecord) : FundingAnalysis :=
  let analytics := calculateFundingAnalytics primaryRecord in
  let contributorAnalysis := getContributorAnalysis primaryRecord in
  {| summary :=
       {| Summary.totalRaised := totalFunding analytics;
          Summary.totalSpent := adjustedTotal (expenditures analytics);
          Summary.cashOnHand := cashOnHand (financialHealth analytics);
          Summary.debt := debt (financialHealth analytics);
          Summary.netPosition := netPosition (financialHealth analytics);
          Summary.coveragePeriod := coverageEndDate primaryRecord;
          Summary.hasTransferIssue :=
            hasDoubleCountingIssue (transferActivity analytics);
          Summary.transfersIn := transfersIn (transferActivity analytics);
          Summary.transfersOut := transfersOut (transferActivity analytics);
          Summary.adjustedAmount :=
            negb (Qeq_bool (adjustedTotalReceipts analytics)
                    (totalReceipts primaryRecord));
          Summary.adjustedSpent :=
            negb (Qeq_bool (adjustedTotalDisbursements analytics)
                    (totalDisbursements primaryRecord));
          Summary.rawTotalReceipts := totalReceipts primaryRecord;
          Summary.rawTotalDisbursements := totalDisbursements primaryRecord |};
     sources := fundingSources analytics;
     influenceAnalysis := contributorAnalysis;
     health :=
       {| Health.efficiency := efficiency (expenditures analytics);
          Health.burnRate := burnRate (financialHealth analytics);
          Health.debtRatio :=
            ndiv (debt (financialHealth analytics))
                 (Math_max 1 (totalFunding analytics));
          Health.healthStatus :=
            getFinancialHealthStatus (financialHealth analytics) |};
     historicalData :=
       if (1 <? length fundingRecords)%nat
       then historicalEntry <$> slice 1 4 fundingRecords
       else [] |}.

Section Handlers.
Context `{CampaignFinanceParser}.

(** [loadGlobalFundingData]: [file] is the content of [weball26.txt],
    [None] when [readFileSync] throws. *)
Definition loadGlobalFundingData (file : option string) (st : State)
    : list FinancialRecord * State * list Event :=
  match globalFundingData st with
  | Some data => (data, st, [])
  | None =>
      match file with
      | None => ([], st, [ReadFile])
      | Some rawData =>
          match parseAllRecords rawData with
          | None => ([], st, [ReadFile; ParseAll rawData])
          | Some data =>
              (data,
               {| globalFundingData := Some data;
                  fundingCache := fundingCache st |},
               [ReadFile; ParseAll rawData])
          end
      end
  end.

(** The records searched for a member: the "Last, First" search, and when
    it finds nothing the last-name search, narrowed to the member's state
    when it finds more than one record. *)
Definition memberRecords (fundingData : list FinancialRecord) (m : Member)
    : list FinancialRecord :=
  let memberName := (lastName m ++ ", " ++ firstName m)%string in
  let fundingRecords := findByCandidateName fundingData memberName in
  if (length fundingRecords =? 0)%nat then
    let byLastName := findByCandidateName fundingData (lastName m) in
    if (1 <? length byLastName)%nat
    then List.filter (fun r => String.eqb (state r) (memberState m)) byLastName
    else byLastName
  else fundingRecords.

(** [GET] past its cache check.  [db] is the [member] table, [None] where
    [findUnique] finds no row; [t1] is the clock reading at the "no
    records" store or at [lastUpdated], [t2] the one at the store of a
    funding result. *)
Definition compute (id : string) (db : string -> option Member) (t1 t2 : Z)
    (file : option string) (st : State) : Response * State * list Event :=
  match db id with
  | None => ({| status := 404; body := MemberNotFound |}, st, [])
  | Some m =>
      let '(fundingData, st1, evs) := loadGlobalFundingData file st in
      if (length fundingData =? 0)%nat then
        ({| status := 200; body := DataNotAvailable (memberInfo m) |}, st1, evs)
      else
        let memberName := (lastName m ++ ", " ++ firstName m)%string in
        match memberRecords fundingData m with
        | [] =>
            let result := NoRecords (memberInfo m) [memberName; lastName m] in
            ({| status := 200; body := result |},
             {| globalFundingData := globalFundingData st1;
                fundingCache := <[id := (result, t1)]> (fundingCache st1) |},
             evs)
        | primaryRecord :: rest =>
            let fundingRecords := primaryRecord :: rest in
            let result :=
              Funding (memberInfo m)
                (fundingAnalysis fundingRecords primaryRecord)
                primaryRecord t1 in
            ({| status := 200; body := result |},
             {| globalFundingData := globalFundingData st1;
                fundingCache := <[id := (result, t2)]> (fundingCache st1) |},
             evs)
        end
  end.

(** [GET]; [t0] is the clock reading at the cache check. *)
Definition GET (id : string) (db : string -> option Member) (t0 t1 t2 : Z)
    (file : option string) (st : State) : Response * State * list Event :=
  match fundingCache st !! id with
  | Some (data, timestamp) =>
      if (t0 - timestamp <? CACHE_DURATION)%Z
      then ({| status := 200; body := data |}, st, [])
      else compute id db t1 t2 file st
  | None => compute id db t1 t2 file st
  end.

End Handlers.

End MemberRoute.

(** ** Notions the statements below use *)

(** The sum of the five shares, when all five are finite. *)
Definition totalShare (a : FundingAnalytics) : option Q :=
  foldr (fun x acc => q ← valueOf x; s ← acc; Some (q + s)) (Some 0)
    (percentages a).

(** A share that is a finite number, and zero exactly when its amount is. *)
Definition safeShare (x : number) (amt : Q) : Prop :=
  exists q, x = Finite q /\ (q == 0 <-> amt == 0).

(** The source computed from an amount and the adjusted receipts. *)
Definition sourceOf (s : FundingSource) (amt adj : Q) : Prop :=
  amount s = amt /\
  percentage s = Finite (amt / Math_max 1 adj * 100).

(** A share that is the number zero. *)
Definition zeroShare (x : number) : Prop :=
  exists q, x = Finite q /\ q == 0.

(** The five shares of a record add up to one hundred. *)
Definition percentageClosure (r : FinancialRecord) : Prop :=
  exists s, totalShare (calculateFundingAnalytics r) = Some s /\ s == 100.

(** Reading or parsing the data file fails. *)
Definition loadFails `{CampaignFinanceParser} (file : option string) : bool :=
  match file with
  | None => true
  | Some raw => match parseAllRecords raw with None => true | Some _ => false end
  end.

(** The search route's cache holds an array and is within its hour. *)
Definition cacheValid (now : Z) (st : FundingRoute.State) : bool :=
  match FundingRoute.cachedFundingData st with
  | Some _ => (now - FundingRoute.cacheTimestamp st <? FundingRoute.CACHE_DURATION)%Z
  | None => false
  end.

(** Descending order of a key, and of the raw receipts. *)
Definition above {A : Type} (key : A -> Q) (a b : A) : Prop := key b <= key a.

Definition byReceipts : FinancialRecord -> FinancialRecord -> Prop :=
  above totalReceipts.

(** *** Sample data *)

(** Receipts of 400,000 of which 200,000 are transfers in; 150,000 from PACs. *)
Definition transferHeavy : FinancialRecord :=
  filing "DOE, JANE" "CA" 400000 200000 0 150000 0.

(** The end-to-end scenario of section 8. *)
Definition scenario : FinancialRecord :=
  filing "ROE, RICHARD" "OH" 100000 20000 50000 30000 0.

(** Net receipts below zero. *)
Definition netRefund : FinancialRecord :=
  filing "POE, ALEX" "NY" (-500) 0 0 0 0.

(** Fifty cents raised, all from individuals. *)
Definition fiftyCents : FinancialRecord :=
  filing "LOE, SAM" "WA" (1 # 2) 0 (1 # 2) 0 0.

(** Transfers reported beside the receipts rather than inside them. *)
Definition transfersBeside : FinancialRecord :=
  filing "MOE, PAT" "IL" 80000 50000 80000 0 0.

(** No receipts reported, PAC money reported. *)
Definition pacOnly : FinancialRecord :=
  filing "COE, LEE" "TX" 0 0 0 150000 0.

Definition smithAdam : FinancialRecord :=
  filing "SMITH, ADAM" "TX" 900000 0 900000 0 0.

Definition smithJane : FinancialRecord :=
  filing "SMITH, JANE" "CA" 300000 0 300000 0 0.

Definition johnSmith : MemberRoute.Member :=
  {| MemberRoute.memberId := "S000001";
     MemberRoute.firstName := "John";
     MemberRoute.lastName := "Smith";
     MemberRoute.memberParty := "D";
     MemberRoute.memberState := "CA";
     MemberRoute.chamber := "house" |}.

Definition members (id : string) : option MemberRoute.Member :=
  if String.eqb id "S000001" then Some johnSmith else None.

(** A two-line data file and the decoder for its lines. *)
Definition twoSmiths : string := "line-adam" ++ String "010" "line-jane".

Definition sampleParser : CampaignFinanceParser :=
  specParser (decodeFrom [("line-adam"%string, smithAdam);
                          ("line-jane"%string, smithJane);
                          ("line-doe"%string, transferHeavy)]).

Definition query (type : string) : FundingRoute.Query :=
  {| FundingRoute.qCandidate := None; FundingRoute.qState := None;
     FundingRoute.qDistrict := None; FundingRoute.qType := Some type |}.

(** A data file whose lines are in ascending order of receipts. *)
Definition janeThenAdam : string := "line-jane" ++ String "010" "line-adam".

(** The states of the two routes after a first request at time 0 has
    loaded the two-line file. *)
Definition searchLoaded : FundingRoute.State :=
  (@FundingRoute.GET sampleParser (query "top-donors") 0 (Some twoSmiths)
     FundingRoute.initial).1.2.

Definition memberLoaded : MemberRoute.State :=
  (@MemberRoute.GET sampleParser "S000001" members 0 0 0 (Some twoSmiths)
     MemberRoute.initial).1.2.

(** ** The API path helper ([lib/api.ts]) *)

Module Api.

(** [s.replace(/\/$/, '')]: a final slash, if there is one, is removed. *)
Fixpoint dropFinalSlash (s : string) : string :=
  match s with
  | EmptyString => EmptyString
  | String c rest =>
      match rest with
      | EmptyString => if Ascii.eqb c "/" then EmptyString else s
      | String _ _ => String c (dropFinalSlash rest)
      end
  end.

(** [API_BASE]; [env] is [process.env.NEXT_PUBLIC_API_BASE], [None] when
    it is not set. *)
Definition API_BASE (env : option string) : string :=
  dropFinalSlash (match env with
                  | Some v => if String.eqb v "" then "" else v
                  | None => ""
                  end).

Definition apiPath (base : string) (path : string) : string :=
  let p := if String.prefix "/" path then path else ("/" ++ path)%string in
  (base ++ p)%string.

(** The last character of a string is a slash. *)
Fixpoint endsWithSlash (s : string) : bool :=
  match s with
  | EmptyString => false
  | String c rest =>
      match rest with
      | EmptyString => Ascii.eqb c "/"
      | String _ _ => endsWithSlash rest
      end
  end.

End Api.

(** ** Notions of the further properties *)

(** The states the search route can be in: the initial one and those its
    handlers leave. *)
Inductive reachable `{CampaignFinanceParser} : FundingRoute.State -> Prop :=
| reach_initial : reachable FundingRoute.initial
| reach_GET (q : FundingRoute.Query) (now : Z) (file : option string)
    (st : FundingRoute.State) :
    reachable st -> reachable (FundingRoute.GET q now file st).1.2
| reach_POST (c : FundingRoute.Candidates) (now : Z) (file : option string)
    (st : FundingRoute.State) :
    reachable st -> reachable (FundingRoute.POST c now file st).1.2.

(** The cached array holds the records of some parsed file, in some order. *)
Definition cacheBacked `{CampaignFinanceParser} (st : FundingRoute.State) : Prop :=
  forall a, FundingRoute.cachedFundingData st = Some a ->
    exists raw records cached,
      parseAllRecords raw = Some records /\
      FundingRoute.heap st !! a = Some cached /\
      Permutation records cached.

(** [top] is the first [n] of [pool] in descending order of [key]: it is
    sorted, has [min n (length pool)] elements, and the rest of [pool]
    holds nothing above any of its elements. *)
Definition topOf (key : FinancialRecord -> Q) (n : nat)
    (pool top : list FinancialRecord) : Prop :=
  length top = Nat.min n (length pool) /\
  Sorted (above key) top /\
  exists rest, Permutation pool (top ++ rest) /\
    forall x y, In x top -> In y rest -> key y <= key x.

(** The records whose [key] is above a threshold, in the order of the
    collection. *)
Definition qualifying (key : FinancialRecord -> Q) (threshold : Q)
    (data : list FinancialRecord) : list FinancialRecord :=
  List.filter (fun r => negb (Qle_bool (key r) threshold)) data.

(** The entry a breakdown holds for a key that [n] records carry: none
    for [__proto__] and for a key no record carries, text for the name of
    an inherited function, the number [n] otherwise. *)
Definition tallyOf (k : string) (n : nat) : option FundingRoute.Tally :=
  if String.eqb k "__proto__" then None
  else match n with
       | O => None
       | S _ => Some (if FundingRoute.inheritedFunction k
                      then FundingRoute.SourceAndOnes n
                      else FundingRoute.Count n)
       end.

(** A key that is not the name of a property objects inherit. *)
Definition ordinaryKey (k : string) : bool :=
  negb (String.eqb k "__proto__") && negb (FundingRoute.inheritedFunction k).

(** The number of records whose [key] is [k]. *)
Definition countOf (key : FinancialRecord -> string) (k : string)
    (data : list FinancialRecord) : nat :=
  length (List.filter (fun r => String.eqb (key r) k) data).

(** The requests the search route serves once it has data: a search with a
    candidate or a state, the analytics view and the top-donors view. *)
Definition answerable (q : FundingRoute.Query) : bool :=
  (String.eqb (FundingRoute.searchType q) "search"
   && (truthy (FundingRoute.qCandidate q) || truthy (FundingRoute.qState q)))
  || String.eqb (FundingRoute.searchType q) "analytics"
  || String.eqb (FundingRoute.searchType q) "top-donors".

(** The member route's result cache holds an entry for [id] that is less
    than thirty minutes old at the clock reading [t0]. *)
Definition resultCached (t0 : Z) (id : string) (st : MemberRoute.State) : bool :=
  match MemberRoute.fundingCache st !! id with
  | Some (_, timestamp) => (t0 - timestamp <? MemberRoute.CACHE_DURATION)%Z
  | None => false
  end.

(** The bodies the member route stores in its result cache, and the clock
    reading it stores with them. *)
Definition cacheable (b : MemberRoute.Body) : bool :=
  match b with
  | MemberRoute.NoRecords _ _ | MemberRoute.Funding _ _ _ _ => true
  | _ => false
  end.

Definition storeTime (b : MemberRoute.Body) (t1 t2 : Z) : Z :=
  match b with
  | MemberRoute.NoRecords _ _ => t1
  | _ => t2
  end.

(** * Properties *)

(** ** Numbers *)

Lemma Math_max_cases (a b : Q) :
  (a <= b /\ Math_max a b = b) \/ (b < a /\ Math_max a b = a).
Proof.
  unfold Math_max. destruct (Qle_bool a b) eqn:E.
  - left. split; [now apply Qle_bool_iff | reflexivity].
  - right. split; [| reflexivity].
    apply Qnot_le_lt. intros Hle. apply Qle_bool_iff in Hle. congruence.
Qed.

Lemma Math_max_lower (a b : Q) : a <= Math_max a b.
Proof. destruct (Math_max_cases a b) as [[? ->] | [? ->]]; lra. Qed.

Lemma ndiv_nonzero (a b : Q) : ~ b == 0 -> ndiv a b = Finite (a / b).
Proof.
  intros Hb. unfold ndiv. destruct (Qeq_bool b 0) eqn:E; [| reflexivity].
  apply Qeq_bool_iff in E. contradiction.
Qed.

Lemma ratio_finite (a total : Q) :
  ndiv a (Math_max 1 total) = Finite (a / Math_max 1 total).
Proof. apply ndiv_nonzero. pose proof (Math_max_lower 1 total). lra. Qed.

Lemma share_finite (amt total : Q) :
  share amt total = Finite (amt / Math_max 1 total * 100).
Proof. unfold share. now rewrite ratio_finite. Qed.

Lemma share_zero_iff (amt d : Q) : 1 <= d -> (amt / d * 100 == 0 <-> amt == 0).
Proof.
  intros Hd. split; intros E.
  - assert (Hm : amt == (amt / d * 100) * (d / 100)) by (field; lra).
    rewrite Hm, E. ring.
  - rewrite E. field. lra.
Qed.

Lemma share_safe (amt total : Q) : safeShare (share amt total) amt.
Proof.
  exists (amt / Math_max 1 total * 100). split; [apply share_finite |].
  apply share_zero_iff, Math_max_lower.
Qed.

(** ** Analytics engine *)

Lemma Math_max_floor (x : Q) : 0 <= Math_max 0 x.
Proof. apply Math_max_lower. Qed.

Lemma floor_below_iff (t x : Q) : Math_max 0 (t - x) <= t <-> 0 <= t /\ 0 <= x.
Proof.
  destruct (Math_max_cases 0 (t - x)) as [[Hle ->] | [Hlt ->]]; split; intros; lra.
Qed.

(** C2, as stated, fails: a record whose raw receipts are below zero has
    adjusted receipts of zero, which is above the raw total. *)
Lemma adjusted_receipts_above_raw :
  ~ (adjustedTotalReceipts (calculateFundingAnalytics netRefund)
     <= totalReceipts netRefund).
Proof. vm_compute. intros Hle. now apply Hle. Qed.

(** C2, amended: for every record the adjusted receipts are
    [max(0, totalReceipts - transfersIn)] and the adjusted disbursements
    [max(0, totalDisbursements - transfersOut)]; the adjusted total is at
    most the raw total exactly when the raw total and the transfer amount
    are both non-negative. *)
Theorem transfer_correction (r : FinancialRecord) :
  let a := calculateFundingAnalytics r in
  adjustedTotalReceipts a
    = Math_max 0 (totalReceipts r - transfersFromAuthorized r) /\
  adjustedTotalDisbursements a
    = Math_max 0 (totalDisbursements r - transfersToAuthorized r) /\
  0 <= adjustedTotalReceipts a /\
  0 <= adjustedTotalDisbursements a /\
  (adjustedTotalReceipts a <= totalReceipts r
   <-> 0 <= totalReceipts r /\ 0 <= transfersFromAuthorized r) /\
  (adjustedTotalDisbursements a <= totalDisbursements r
   <-> 0 <= totalDisbursements r /\ 0 <= transfersToAuthorized r).
Proof.
  cbn. split; [reflexivity |]. split; [reflexivity |].
  split; [apply Math_max_floor |]. split; [apply Math_max_floor |].
  split; apply floor_below_iff.
Qed.

Lemma totalShare_value (r : FinancialRecord) :
  let adj := adjustedTotalReceipts (calculateFundingAnalytics r) in
  let d := Math_max 1 adj in
  totalShare (calculateFundingAnalytics r)
  = Some (individualContributions r / d * 100
          + (pacContributions r / d * 100
             + (partyContributions r / d * 100
                + (candidateAmount r / d * 100
                   + (Math_max 0 (adj - namedAmount r) / d * 100 + 0))))).
Proof.
  cbn. unfold totalShare, percentages. cbn. now rewrite !share_finite.
Qed.

(** C3, as stated, fails: a record with fifty cents of receipts, all from
    individuals, has positive adjusted receipts and shares that add up to
    fifty, because the divisor is [max(1, 0.5) = 1]. *)
Lemma closure_fails_below_one_dollar :
  0 < adjustedTotalReceipts (calculateFundingAnalytics fiftyCents) /\
  ~ percentageClosure fiftyCents.
Proof.
  split; [reflexivity |].
  intros (s & Hs & E). vm_compute in Hs. injection Hs as <-.
  vm_compute in E. discriminate.
Qed.

Lemma closure_iff_balance (r : FinancialRecord) :
  let adj := adjustedTotalReceipts (calculateFundingAnalytics r) in
  percentageClosure r
  <-> namedAmount r + Math_max 0 (adj - namedAmount r) == Math_max 1 adj.
Proof.
  intros adj. unfold percentageClosure. rewrite totalShare_value. fold adj.
  set (d := Math_max 1 adj). set (o := Math_max 0 (adj - namedAmount r)).
  assert (Hd : 1 <= d) by apply Math_max_lower.
  set (total := individualContributions r / d * 100
                + (pacContributions r / d * 100
                   + (partyContributions r / d * 100
                      + (candidateAmount r / d * 100 + (o / d * 100 + 0))))).
  assert (Htotal : total == (namedAmount r + o) / d * 100)
    by (unfold total, namedAmount; field; lra).
  split.
  - intros (s & [= <-] & E). rewrite Htotal in E.
    assert (Hm : namedAmount r + o
                 == ((namedAmount r + o) / d * 100) * (d / 100))
      by (field; lra).
    rewrite Hm, E. field.
  - intros E. exists total. split; [reflexivity |].
    rewrite Htotal, E. field. lra.
Qed.

(** C3, amended: for every record with adjusted receipts above zero, each
    of the five sources has
    [percentage = amount / max(1, adjustedTotalReceipts) * 100], with
    [other = max(0, adjustedTotalReceipts - named)]; the five percentages
    add up to 100 exactly when the adjusted receipts are at least 1 and the
    four named categories add up to at most the adjusted receipts, or the
    adjusted receipts are below 1 and the named categories add up to
    exactly 1. *)
Theorem percentage_closure (r : FinancialRecord) :
  let a := calculateFundingAnalytics r in
  let adj := adjustedTotalReceipts a in
  let s := fundingSources a in
  0 < adj ->
  sourceOf (Sources.individual s) (individualContributions r) adj /\
  sourceOf (Sources.pac s) (pacContributions r) adj /\
  sourceOf (Sources.party s) (partyContributions r) adj /\
  sourceOf (Sources.candidate s)
    (candidateContributions r + candidateLoans r) adj /\
  sourceOf (Sources.other s) (Math_max 0 (adj - namedAmount r)) adj /\
  (percentageClosure r
   <-> (1 <= adj /\ namedAmount r <= adj) \/
       (adj < 1 /\ namedAmount r == 1)).
Proof.
  intros a adj s Hadj.
  do 5 (split; [split; [reflexivity | apply share_finite] |]).
  rewrite closure_iff_balance. fold a adj.
  destruct (Math_max_cases 1 adj) as [[H1 ->] | [H1 ->]];
    destruct (Math_max_cases 0 (adj - namedAmount r)) as [[H0 ->] | [H0 ->]];
    split; intros Hc; try (destruct Hc as [[? ?] | [? ?]]); try lra;
    try (left; split; lra); right; split; lra.
Qed.

Lemma percentage_closure_scenario :
  0 < adjustedTotalReceipts (calculateFundingAnalytics scenario) /\
  percentageClosure scenario.
Proof.
  assert (H0 : 0 < adjustedTotalReceipts (calculateFundingAnalytics scenario))
    by reflexivity.
  assert (H1 : 1 <= adjustedTotalReceipts (calculateFundingAnalytics scenario))
    by (vm_compute; discriminate).
  assert (H2 : namedAmount scenario
               <= adjustedTotalReceipts (calculateFundingAnalytics scenario))
    by (vm_compute; discriminate).
  split; [exact H0 |].
  apply (proj2 (proj2 (proj2 (proj2 (proj2 (percentage_closure scenario H0)))))).
  left. split; assumption.
Defined.

(** ** Zero receipts *)

Lemma guard_at_zero (total : Q) : total == 0 -> Math_max 1 total = 1.
Proof.
  intros E. destruct (Math_max_cases 1 total) as [[Hle _] | [_ ->]];
    [lra | reflexivity].
Qed.

Lemma raw_share_at_zero (amt total : Q) :
  total == 0 ->
  exists q, nmul (ndiv amt (Math_max 1 total)) 100 = Finite q /\ q == amt * 100.
Proof.
  intros E. rewrite ratio_finite, (guard_at_zero total E). cbn.
  eexists. split; [reflexivity |]. field.
Qed.

(** C4, as stated, fails: a record with no receipts and 150,000 of PAC
    money passes the top-donors filter and is shown with a PAC percentage
    of 15,000,000, and the analytics engine gives it the same PAC share. *)
Lemma zero_receipts_share_not_zero :
  totalReceipts pacOnly == 0 /\
  FundingRoute.highPacCandidates [pacOnly] = [pacOnly] /\
  ~ zeroShare (FundingRoute.pacPercentage pacOnly) /\
  ~ zeroShare
      (percentage
         (Sources.pac (fundingSources (calculateFundingAnalytics pacOnly)))).
Proof.
  split; [reflexivity |]. split; [reflexivity |].
  split; intros (q & Hq & E); vm_compute in Hq; injection Hq as <-;
    vm_compute in E; discriminate.
Qed.

(** C4, amended: for every record with [totalReceipts = 0], every
    percentage and ratio computed by the engine and by the routes is a
    finite number, never NaN or an infinity, because each divisor is
    [max(1, ...)]; a share of the engine is 0 exactly when its amount is 0,
    and a top-donors percentage is the amount times 100. *)
Theorem zero_receipts_safe (r : FinancialRecord) (others : list FinancialRecord) :
  totalReceipts r == 0 ->
  let a := calculateFundingAnalytics r in
  let s := fundingSources a in
  (safeShare (percentage (Sources.individual s)) (amount (Sources.individual s)) /\
   safeShare (percentage (Sources.pac s)) (amount (Sources.pac s)) /\
   safeShare (percentage (Sources.party s)) (amount (Sources.party s)) /\
   safeShare (percentage (Sources.candidate s)) (amount (Sources.candidate s)) /\
   safeShare (percentage (Sources.other s)) (amount (Sources.other s))) /\
  (isFinite (burnRate (financialHealth a)) = true /\
   isFinite (efficiency (expenditures a)) = true /\
   isFinite
     (MemberRoute.Health.debtRatio
        (MemberRoute.health (MemberRoute.fundingAnalysis (r :: others) r)))
   = true) /\
  (exists q, FundingRoute.pacPercentage r = Finite q /\
             q == pacContributions r * 100) /\
  (exists q, FundingRoute.selfPercentage r = Finite q /\
             q == (candidateContributions r + candidateLoans r) * 100) /\
  (exists q, FundingRoute.individualPercentage r = Finite q /\
             q == individualContributions r * 100).
Proof.
  intros Hzero a s.
  split; [repeat split; apply share_safe |].
  split.
  - cbn. now rewrite !ratio_finite.
  - unfold FundingRoute.pacPercentage, FundingRoute.selfPercentage,
      FundingRoute.individualPercentage.
    repeat split; now apply raw_share_at_zero.
Qed.

Lemma zero_receipts_safe_pacOnly :
  totalReceipts pacOnly == 0 /\
  exists q, FundingRoute.pacPercentage pacOnly = Finite q /\
            q == pacContributions pacOnly * 100.
Proof.
  assert (H0 : totalReceipts pacOnly == 0) by reflexivity.
  split; [exact H0 |].
  exact (proj1 (proj2 (proj2 (zero_receipts_safe pacOnly [] H0)))).
Defined.

(** ** Raw and adjusted denominators *)

(** The three percentages of the top-donors view are the amounts over
    [max(1, totalReceipts)], the raw receipts, for every record. *)
Lemma top_donors_denominator (r : FinancialRecord) :
  let d := Math_max 1 (totalReceipts r) in
  FundingRoute.pacPercentage r = Finite (pacContributions r / d * 100) /\
  FundingRoute.selfPercentage r
  = Finite ((candidateContributions r + candidateLoans r) / d * 100) /\
  FundingRoute.individualPercentage r
  = Finite (individualContributions r / d * 100).
Proof.
  unfold FundingRoute.pacPercentage, FundingRoute.selfPercentage,
    FundingRoute.individualPercentage.
  cbn. now rewrite !ratio_finite.
Qed.

(** C1: the top-donors view divides by the raw receipts.  For a record with
    400,000 of receipts, 200,000 of them transfers in, and 150,000 of PAC
    money, the route reports a PAC percentage of 37.5 where the share of
    the adjusted receipts, which the engine computes, is 75. *)
Theorem top_donors_divides_by_raw_receipts :
  let P := sampleParser in
  let '(resp, _, _) :=
    FundingRoute.GET (query "top-donors") 0 (Some "line-doe"%string)
      FundingRoute.initial in
  FundingRoute.body resp
  = FundingRoute.TopDonorsBody [FundingRoute.highPacRow transferHeavy] [] [] /\
  (exists q,
     FundingRoute.percentageOfTotal (FundingRoute.highPacRow transferHeavy)
     = formatPercentage (Finite q) /\ q == 75 # 2) /\
  (exists q,
     percentage
       (Sources.pac (fundingSources (calculateFundingAnalytics transferHeavy)))
     = Finite q /\ q == 75) /\
  adjustedTotalReceipts (calculateFundingAnalytics transferHeavy) == 200000.
Proof.
  vm_compute. split; [reflexivity |].
  split; [eexists; split; [reflexivity | reflexivity] |].
  split; [eexists; split; [reflexivity | reflexivity] | reflexivity].
Qed.

(** ** Loaders *)

Section Loaders.
Context `{CampaignFinanceParser}.

Lemma alloc_fetch (h : gmap nat (list FinancialRecord)) (v : list FinancialRecord) :
  FundingRoute.fetch (FundingRoute.alloc h v).2 (FundingRoute.alloc h v).1 = v /\
  h !! (FundingRoute.alloc h v).1 = None.
Proof.
  unfold FundingRoute.alloc, FundingRoute.fetch. cbn. split.
  - now rewrite lookup_insert_eq.
  - apply not_elem_of_dom, is_fresh.
Qed.

Lemma load_valid (now : Z) (file : option string) (st : FundingRoute.State) :
  cacheValid now st = true ->
  exists a, FundingRoute.cachedFundingData st = Some a /\
            FundingRoute.loadFundingData now file st = (a, st, []).
Proof.
  unfold cacheValid, FundingRoute.loadFundingData.
  destruct (FundingRoute.cachedFundingData st) as [a |]; [| discriminate].
  intros ->. now exists a.
Qed.

Lemma load_invalid (now : Z) (file : option string) (st : FundingRoute.State) :
  cacheValid now st = false ->
  FundingRoute.loadFundingData now file st = FundingRoute.readAndParse now file st.
Proof.
  unfold cacheValid, FundingRoute.loadFundingData.
  destruct (FundingRoute.cachedFundingData st) as [a |]; [| reflexivity].
  now intros ->.
Qed.

Lemma readAndParse_fails (now : Z) (file : option string) (st : FundingRoute.State) :
  loadFails file = true ->
  let '(a, st', evs) := FundingRoute.readAndParse now file st in
  FundingRoute.fetch (FundingRoute.heap st') a = [] /\
  FundingRoute.cachedFundingData st' = FundingRoute.cachedFundingData st /\
  FundingRoute.cacheTimestamp st' = FundingRoute.cacheTimestamp st.
Proof.
  unfold loadFails, FundingRoute.readAndParse. intros Hf.
  destruct file as [raw |].
  - destruct (parseAllRecords raw); [discriminate |]. cbn.
    split; [apply alloc_fetch | now split].
  - cbn. split; [apply alloc_fetch | now split].
Qed.

Lemma readAndParse_parses_once (now : Z) (raw : string) (st : FundingRoute.State) :
  parseCalls (FundingRoute.readAndParse now (Some raw) st).2 = 1%nat.
Proof.
  unfold FundingRoute.readAndParse.
  destruct (parseAllRecords raw); reflexivity.
Qed.

Lemma load_parses_at_most_once (now : Z) (file : option string)
    (st : FundingRoute.State) :
  (parseCalls (FundingRoute.loadFundingData now file st).2 <= 1)%nat.
Proof.
  unfold FundingRoute.loadFundingData, FundingRoute.readAndParse.
  destruct (FundingRoute.cachedFundingData st);
    [destruct (_ <? _)%Z |]; cbn; try lia;
    (destruct file as [raw |]; [destruct (parseAllRecords raw) |]); cbn; lia.
Qed.

Lemma loadGlobal_parses_at_most_once (file : option string)
    (st : MemberRoute.State) :
  (parseCalls (MemberRoute.loadGlobalFundingData file st).2 <= 1)%nat.
Proof.
  unfold MemberRoute.loadGlobalFundingData.
  destruct (MemberRoute.globalFundingData st); cbn; try lia.
  destruct file as [raw |]; [destruct (parseAllRecords raw) |]; cbn; lia.
Qed.

Lemma loadGlobal_fails (file : option string) (st : MemberRoute.State) :
  loadFails file = true ->
  MemberRoute.globalFundingData st = None ->
  exists evs, MemberRoute.loadGlobalFundingData file st = ([], st, evs).
Proof.
  unfold loadFails, MemberRoute.loadGlobalFundingData. intros Hf ->.
  destruct file as [raw |]; [destruct (parseAllRecords raw); [discriminate |] |];
    eexists; reflexivity.
Qed.

End Loaders.

(** C5: an empty raw text parses to the empty collection, and when reading
    or parsing the data file fails each loader returns an empty array
    without raising and without touching its cache; the same holds for an
    empty file.  The search route then answers 404 "not available" and the
    member route answers with [funding: null] and the same message. *)
Theorem empty_or_unreadable_input `{CampaignFinanceParser}
    (decodeLine : string -> option FinancialRecord) (now : Z)
    (file : option string) (st : FundingRoute.State) (mst : MemberRoute.State)
    (q : FundingRoute.Query) :
  loadFails file = true ->
  cacheValid now st = false ->
  MemberRoute.globalFundingData mst = None ->
  parseLines decodeLine "" = [] /\
  (let '(a, st', _) := FundingRoute.loadFundingData now file st in
   FundingRoute.fetch (FundingRoute.heap st') a = [] /\
   FundingRoute.cachedFundingData st' = FundingRoute.cachedFundingData st /\
   FundingRoute.cacheTimestamp st' = FundingRoute.cacheTimestamp st) /\
  (let '(a, st', _) :=
     @FundingRoute.loadFundingData (specParser decodeLine) now (Some ""%string) st in
   FundingRoute.fetch (FundingRoute.heap st') a = []) /\
  (exists evs, MemberRoute.loadGlobalFundingData file mst = ([], mst, evs)) /\
  (@MemberRoute.loadGlobalFundingData (specParser decodeLine) (Some ""%string) mst).1.1
  = [] /\
  (FundingRoute.GET q now file st).1.1
  = {| FundingRoute.status := 404;
       FundingRoute.body :=
         FundingRoute.ErrorBody "Campaign finance data not available"
           (Some []) (Some 0%nat) |} /\
  (forall id db t0 t1 t2 m,
     db id = Some m ->
     MemberRoute.fundingCache mst !! id = None ->
     (MemberRoute.GET id db t0 t1 t2 file mst).1.1
     = {| MemberRoute.status := 200;
          MemberRoute.body :=
            MemberRoute.DataNotAvailable (MemberRoute.memberInfo m) |}).
Proof.
  intros Hfails Hinvalid Hnone.
  split; [reflexivity |].
  pose proof (readAndParse_fails now file st Hfails) as Hread.
  split; [now rewrite load_invalid |].
  split.
  { rewrite (load_invalid (H := specParser decodeLine)) by assumption.
    cbn. apply alloc_fetch. }
  split; [now apply loadGlobal_fails |].
  split.
  { unfold MemberRoute.loadGlobalFundingData. now rewrite Hnone. }
  split.
  - unfold FundingRoute.GET. rewrite load_invalid by assumption.
    destruct (FundingRoute.readAndParse now file st) as [[a st'] evs].
    destruct Hread as (-> & _). reflexivity.
  - intros id db t0 t1 t2 m Hdb Hmiss.
    unfold MemberRoute.GET. rewrite Hmiss.
    unfold MemberRoute.compute. rewrite Hdb.
    destruct (loadGlobal_fails file mst Hfails Hnone) as [evs ->]. reflexivity.
Qed.

Lemma empty_or_unreadable_input_initial :
  (@loadFails sampleParser None = true /\
   cacheValid 0 FundingRoute.initial = false /\
   MemberRoute.globalFundingData MemberRoute.initial = None) /\
  parseLines (fun _ => None) "" = [].
Proof.
  split; [repeat split |].
  exact (proj1 (@empty_or_unreadable_input sampleParser (fun _ => None) 0 None
                  FundingRoute.initial MemberRoute.initial (query "search")
                  eq_refl eq_refl eq_refl)).
Defined.

(** ** Cache windows *)

(** C7, as stated, fails for the member route: its parsed collection has no
    time stamp.  After a first request at time 0 has loaded the file, no
    request parses again however late its clock reading, so no window
    bounds the validity of the cached collection. *)
Lemma member_collection_never_expires :
  ~ (exists window : Z, forall t : Z, (window <= t)%Z ->
       (1 <= parseCalls
               (@MemberRoute.GET sampleParser "S000001" members t t t
                  (Some twoSmiths) memberLoaded).2)%nat).
Proof.
  intros [window Hw]. specialize (Hw (Z.max window 0) (Z.le_max_l _ _)).
  revert Hw. generalize (Z.max window 0). intros t.
  unfold MemberRoute.GET.
  replace (MemberRoute.fundingCache memberLoaded !! "S000001"%string)
    with (Some (MemberRoute.Funding (MemberRoute.memberInfo johnSmith)
                  (MemberRoute.fundingAnalysis [smithJane] smithJane)
                  smithJane 0, 0%Z))
    by (vm_compute; reflexivity).
  destruct (t - 0 <? MemberRoute.CACHE_DURATION)%Z; vm_compute; lia.
Qed.

(** C7, amended: each route caches the parsed collection: a load that
    finds its cache unset (in the search route also: expired) and parses the
    file stores the parsed records, in the search route with the time of
    the load.  While the cache is valid a load returns the cached
    collection without calling [parseAllRecords], and no load parses more
    than once.  In the search route the cache is valid for one hour after
    the load, and the first load after that hour parses the file again; in
    the member route the cached collection is valid without a bound in
    time.  What expires in the member route, after thirty minutes, is the
    per-member result: the request is then computed again, from the cached
    collection and without parsing. *)
Theorem cached_collection_is_reused `{CampaignFinanceParser}
    (now : Z) (file : option string) (st : FundingRoute.State)
    (mst : MemberRoute.State) (a : nat) (data : list FinancialRecord) :
  FundingRoute.cachedFundingData st = Some a ->
  (now - FundingRoute.cacheTimestamp st < FundingRoute.CACHE_DURATION)%Z ->
  MemberRoute.globalFundingData mst = Some data ->
  FundingRoute.loadFundingData now file st = (a, st, []) /\
  (forall later raw,
     (FundingRoute.CACHE_DURATION <= later - FundingRoute.cacheTimestamp st)%Z ->
     parseCalls (FundingRoute.loadFundingData later (Some raw) st).2 = 1%nat) /\
  (forall t f s, (parseCalls (FundingRoute.loadFundingData t f s).2 <= 1)%nat) /\
  MemberRoute.loadGlobalFundingData file mst = (data, mst, []) /\
  (forall f s, (parseCalls (MemberRoute.loadGlobalFundingData f s).2 <= 1)%nat) /\
  FundingRoute.CACHE_DURATION = 3600000%Z /\
  (forall t raw records st0,
     cacheValid t st0 = false ->
     parseAllRecords raw = Some records ->
     let first := FundingRoute.loadFundingData t (Some raw) st0 in
     first.2 = [ReadFile; ParseAll raw] /\
     FundingRoute.fetch (FundingRoute.heap first.1.2) first.1.1 = records /\
     FundingRoute.cachedFundingData first.1.2 = Some first.1.1 /\
     FundingRoute.cacheTimestamp first.1.2 = t) /\
  (forall raw records mst0,
     MemberRoute.globalFundingData mst0 = None ->
     parseAllRecords raw = Some records ->
     MemberRoute.loadGlobalFundingData (Some raw) mst0
     = (records,
        {| MemberRoute.globalFundingData := Some records;
           MemberRoute.fundingCache := MemberRoute.fundingCache mst0 |},
        [ReadFile; ParseAll raw])) /\
  MemberRoute.CACHE_DURATION = 1800000%Z /\
  (forall id db t0 t1 t2 f s body timestamp,
     MemberRoute.fundingCache s !! id = Some (body, timestamp) ->
     ((t0 - timestamp < MemberRoute.CACHE_DURATION)%Z ->
      MemberRoute.GET id db t0 t1 t2 f s
      = ({| MemberRoute.status := 200; MemberRoute.body := body |}, s, [])) /\
     ((MemberRoute.CACHE_DURATION <= t0 - timestamp)%Z ->
      MemberRoute.GET id db t0 t1 t2 f s
      = MemberRoute.compute id db t1 t2 f s)) /\
  (forall id db t1 t2 f,
     parseCalls (MemberRoute.compute id db t1 t2 f mst).2 = 0%nat).
Proof.
  intros Hcached Hfresh Hglobal.
  split.
  { unfold FundingRoute.loadFundingData. rewrite Hcached.
    now destruct (Z.ltb_spec (now - FundingRoute.cacheTimestamp st)
                    FundingRoute.CACHE_DURATION); [| lia]. }
  split.
  { intros later raw Hlate. rewrite load_invalid; [apply readAndParse_parses_once |].
    unfold cacheValid. rewrite Hcached. apply Z.ltb_ge, Hlate. }
  split; [apply load_parses_at_most_once |].
  split; [unfold MemberRoute.loadGlobalFundingData; now rewrite Hglobal |].
  split; [apply loadGlobal_parses_at_most_once |].
  split; [reflexivity |].
  split.
  { intros t raw records st0 Hinvalid Hparse. cbn zeta.
    rewrite load_invalid by assumption.
    unfold FundingRoute.readAndParse. rewrite Hparse. cbn.
    split; [reflexivity |]. split; [apply alloc_fetch | now split]. }
  split.
  { intros raw records mst0 Hnone Hparse.
    unfold MemberRoute.loadGlobalFundingData. now rewrite Hnone, Hparse. }
  split; [reflexivity |].
  split.
  { intros id db t0 t1 t2 f s body timestamp Hentry.
    unfold MemberRoute.GET. rewrite Hentry.
    destruct (Z.ltb_spec (t0 - timestamp) MemberRoute.CACHE_DURATION);
      split; intros; try lia; reflexivity. }
  intros id db t1 t2 f. unfold MemberRoute.compute.
  destruct (db id) as [m |]; [| reflexivity].
  unfold MemberRoute.loadGlobalFundingData. rewrite Hglobal.
  destruct (length data =? 0)%nat; [reflexivity |].
  now destruct (MemberRoute.memberRecords data m).
Qed.

Lemma cached_collection_is_reused_sample :
  (FundingRoute.cachedFundingData searchLoaded = Some 0%nat /\
   (1000 - FundingRoute.cacheTimestamp searchLoaded
    < FundingRoute.CACHE_DURATION)%Z /\
   MemberRoute.globalFundingData memberLoaded = Some [smithAdam; smithJane]) /\
  @FundingRoute.loadFundingData sampleParser 1000 None searchLoaded
  = (0%nat, searchLoaded, []).
Proof.
  assert (H1 : FundingRoute.cachedFundingData searchLoaded = Some 0%nat)
    by (vm_compute; reflexivity).
  assert (H2 : (1000 - FundingRoute.cacheTimestamp searchLoaded
                < FundingRoute.CACHE_DURATION)%Z)
    by (vm_compute; reflexivity).
  assert (H3 : MemberRoute.globalFundingData memberLoaded
               = Some [smithAdam; smithJane])
    by (vm_compute; reflexivity).
  split; [repeat split; assumption |].
  exact (proj1 (@cached_collection_is_reused sampleParser 1000 None searchLoaded
                  memberLoaded 0%nat [smithAdam; smithJane] H1 H2 H3)).
Defined.

(** ** Sorting *)

Section Sorting.
Context {A : Type} (key : A -> Q).

Lemma insertBy_perm (x : A) (l : list A) :
  Permutation (x :: l) (insertBy (descending key) x l).
Proof.
  induction l as [| y l IH]; cbn; [reflexivity |].
  destruct (Qle_bool _ _); [reflexivity |].
  rewrite perm_swap. now apply perm_skip.
Qed.

Lemma sortBy_perm (l : list A) : Permutation l (sortBy (descending key) l).
Proof.
  induction l as [| x l IH]; cbn; [reflexivity |].
  rewrite <- insertBy_perm. now apply perm_skip.
Qed.

Lemma insertBy_head (x y : A) (l : list A) :
  above key y x -> HdRel (above key) y l ->
  HdRel (above key) y (insertBy (descending key) x l).
Proof.
  intros Hyx Hl. destruct l as [| z l]; cbn; [now constructor |].
  destruct (Qle_bool _ _); constructor; [assumption |].
  now inversion Hl.
Qed.

Lemma insertBy_sorted (x : A) (l : list A) :
  Sorted (above key) l -> Sorted (above key) (insertBy (descending key) x l).
Proof.
  induction 1 as [| y l Hsorted IH Hhd]; cbn; [repeat constructor |].
  destruct (Qle_bool (descending key x y) 0) eqn:E.
  - apply Qle_bool_iff in E. unfold descending in E.
    constructor; [now constructor |]. constructor. unfold above. lra.
  - constructor; [exact IH |]. apply insertBy_head; [| exact Hhd].
    unfold above. apply Qlt_le_weak, Qnot_le_lt. intros Hle.
    assert (Hb : Qle_bool (descending key x y) 0 = true)
      by (apply Qle_bool_iff; unfold descending; lra).
    congruence.
Qed.

Lemma sortBy_sorted (l : list A) :
  Sorted (above key) (sortBy (descending key) l).
Proof.
  induction l as [| x l IH]; cbn; [constructor |]. now apply insertBy_sorted.
Qed.

End Sorting.

(** ** The analytics view and the cache *)

Section SearchRoute.
Context `{CampaignFinanceParser}.

Lemma load_nonempty_is_cached (now : Z) (file : option string)
    (st st1 : FundingRoute.State) (a : nat) (evs : list Event) :
  FundingRoute.loadFundingData now file st = (a, st1, evs) ->
  FundingRoute.fetch (FundingRoute.heap st1) a <> [] ->
  FundingRoute.cachedFundingData st1 = Some a.
Proof.
  unfold FundingRoute.loadFundingData. intros Hload Hne.
  assert (Hread : FundingRoute.readAndParse now file st = (a, st1, evs) ->
                  FundingRoute.cachedFundingData st1 = Some a).
  { unfold FundingRoute.readAndParse.
    destruct file as [raw |]; [destruct (parseAllRecords raw) |]; cbn;
      intros [= <- <- <-]; try reflexivity;
      exfalso; apply Hne; cbn; apply alloc_fetch. }
  destruct (FundingRoute.cachedFundingData st) as [c |] eqn:Hc; [| auto].
  destruct (_ <? _)%Z; [| auto].
  now injection Hload as <- <- <-.
Qed.

Lemma GET_analytics (q : FundingRoute.Query) (now : Z) (file : option string)
    (st st1 : FundingRoute.State) (a : nat) (evs : list Event) :
  FundingRoute.searchType q = "analytics"%string ->
  FundingRoute.loadFundingData now file st = (a, st1, evs) ->
  FundingRoute.fetch (FundingRoute.heap st1) a <> [] ->
  FundingRoute.GET q now file st
  = ((FundingRoute.analyticsView a st1).1, (FundingRoute.analyticsView a st1).2, evs).
Proof.
  intros Hq Hload Hne. unfold FundingRoute.GET. rewrite Hload, Hq.
  destruct (FundingRoute.fetch (FundingRoute.heap st1) a) eqn:E; [congruence |].
  reflexivity.
Qed.

End SearchRoute.

(** C8: a [type=analytics] request over a non-empty collection sorts the
    cached array itself.  Afterwards the cache still points at the same
    array with the same time stamp, the array holds the same records in
    descending order of [totalReceipts], and every later load within the
    hour returns that reordered array without reading the file. *)
Theorem analytics_sorts_the_cache `{CampaignFinanceParser}
    (q : FundingRoute.Query) (now : Z) (file : option string)
    (st st1 : FundingRoute.State) (a : nat) (evs : list Event) :
  FundingRoute.searchType q = "analytics"%string ->
  FundingRoute.loadFundingData now file st = (a, st1, evs) ->
  FundingRoute.fetch (FundingRoute.heap st1) a <> [] ->
  let parsed := FundingRoute.fetch (FundingRoute.heap st1) a in
  let st2 := (FundingRoute.GET q now file st).1.2 in
  let sorted := FundingRoute.fetch (FundingRoute.heap st2) a in
  FundingRoute.cachedFundingData st2 = Some a /\
  FundingRoute.cacheTimestamp st2 = FundingRoute.cacheTimestamp st1 /\
  sorted = sortBy (descending totalReceipts) parsed /\
  Sorted byReceipts sorted /\
  Permutation parsed sorted /\
  (forall later file',
     (later - FundingRoute.cacheTimestamp st2 < FundingRoute.CACHE_DURATION)%Z ->
     FundingRoute.loadFundingData later file' st2 = (a, st2, [])).
Proof.
  intros Hq Hload Hne parsed st2 sorted.
  pose proof (load_nonempty_is_cached _ _ _ _ _ _ Hload Hne) as Hcached.
  assert (Hst2 : st2 = (FundingRoute.analyticsView a st1).2).
  { unfold st2. now rewrite (GET_analytics q now file st st1 a evs). }
  assert (Hsorted : sorted = sortBy (descending totalReceipts) parsed).
  { unfold sorted. rewrite Hst2. cbn. unfold FundingRoute.fetch at 1.
    now rewrite lookup_insert_eq. }
  assert (Hc2 : FundingRoute.cachedFundingData st2 = Some a)
    by (now rewrite Hst2).
  split; [exact Hc2 |]. split; [now rewrite Hst2 |].
  split; [exact Hsorted |].
  split; [rewrite Hsorted; apply (sortBy_sorted totalReceipts) |].
  split; [rewrite Hsorted; apply sortBy_perm |].
  intros later file' Hlater. unfold FundingRoute.loadFundingData.
  rewrite Hc2.
  now destruct (Z.ltb_spec (later - FundingRoute.cacheTimestamp st2)
                  FundingRoute.CACHE_DURATION); [| lia].
Qed.

Lemma analytics_sorts_the_cache_sample :
  let load :=
    @FundingRoute.loadFundingData sampleParser 0 (Some janeThenAdam)
      FundingRoute.initial in
  let st2 :=
    (@FundingRoute.GET sampleParser (query "analytics") 0 (Some janeThenAdam)
       FundingRoute.initial).1.2 in
  (FundingRoute.searchType (query "analytics") = "analytics"%string /\
   load = (load.1.1, load.1.2, load.2) /\
   FundingRoute.fetch (FundingRoute.heap load.1.2) load.1.1 <> []) /\
  FundingRoute.fetch (FundingRoute.heap st2) load.1.1
  = sortBy (descending totalReceipts)
      (FundingRoute.fetch (FundingRoute.heap load.1.2) load.1.1).
Proof.
  intros load st2.
  assert (H1 : FundingRoute.searchType (query "analytics") = "analytics"%string)
    by reflexivity.
  assert (H2 : load = (load.1.1, load.1.2, load.2)) by (vm_compute; reflexivity).
  assert (H3 : FundingRoute.fetch (FundingRoute.heap load.1.2) load.1.1 <> [])
    by (vm_compute; discriminate).
  split; [repeat split; assumption |].
  exact (proj1 (proj2 (proj2
           (@analytics_sorts_the_cache sampleParser (query "analytics") 0
              (Some janeThenAdam) FundingRoute.initial load.1.2 load.1.1 load.2
              H1 H2 H3)))).
Defined.

(** After one analytics request the file's order, Jane then Adam, is gone
    from the cache: a search served from it a minute later sees Adam first. *)
Example analytics_reorders_later_requests :
  let P := sampleParser in
  let st2 :=
    (FundingRoute.GET (query "analytics") 0 (Some janeThenAdam)
       FundingRoute.initial).1.2 in
  let '(a, st3, evs) := FundingRoute.loadFundingData 60000 None st2 in
  parseLines (decodeFrom [("line-adam"%string, smithAdam);
                          ("line-jane"%string, smithJane)]) janeThenAdam
  = [smithJane; smithAdam] /\
  FundingRoute.fetch (FundingRoute.heap st3) a = [smithAdam; smithJane] /\
  evs = [].
Proof. vm_compute. repeat split. Qed.

(** ** Bulk lookup *)

Lemma filter_found_partition (results : list FundingRoute.Result) :
  (length (List.filter FundingRoute.found results)
   + length (List.filter (fun r => negb (FundingRoute.found r)) results)
   = length results)%nat.
Proof.
  induction results as [| r results IH]; cbn; [reflexivity |].
  destruct (FundingRoute.found r); cbn; lia.
Qed.

Lemma lookup_found `{CampaignFinanceParser} (data : list FinancialRecord)
    (name : string) :
  FundingRoute.resultName (FundingRoute.lookup data name) = name /\
  (FundingRoute.found (FundingRoute.lookup data name) = true
   <-> (0 < length (findByCandidateName data name))%nat).
Proof.
  unfold FundingRoute.lookup.
  destruct (findByCandidateName data name); cbn; split;
    try reflexivity; split; intros; try lia; congruence.
Qed.

(** C9: for every POST whose [candidates] field is an array of names, the
    response has status 200 and one result per requested name, in request
    order; a result has [found = true] exactly when [findByCandidateName]
    returns at least one record for its name; and the summary has
    [requested = candidates.length] and [found + missing = requested]. *)
Theorem bulk_lookup_results `{CampaignFinanceParser} (names : list string)
    (now : Z) (file : option string) (st : FundingRoute.State) :
  let '(a, st1, evs) := FundingRoute.loadFundingData now file st in
  let data := FundingRoute.fetch (FundingRoute.heap st1) a in
  exists results summary,
    FundingRoute.POST (FundingRoute.Names names) now file st
    = ({| FundingRoute.bulkStatus := 200;
          FundingRoute.bulkBody := FundingRoute.BulkResults results summary |},
       st1, evs) /\
    length results = length names /\
    FundingRoute.resultName <$> results = names /\
    (forall i name,
       names !! i = Some name ->
       exists result,
         results !! i = Some result /\
         FundingRoute.resultName result = name /\
         (FundingRoute.found result = true
          <-> (0 < length (findByCandidateName data name))%nat)) /\
    FundingRoute.Summary.requested summary = length names /\
    (FundingRoute.Summary.found summary + FundingRoute.Summary.missing summary
     = FundingRoute.Summary.requested summary)%nat.
Proof.
  destruct (FundingRoute.loadFundingData now file st) as [[a st1] evs] eqn:Hload.
  cbn zeta. unfold FundingRoute.POST. rewrite Hload.
  eexists _, _. split; [reflexivity |].
  split; [apply length_fmap |].
  split.
  { induction names as [| n names IH]; cbn; [reflexivity |].
    f_equal; [apply lookup_found | exact IH]. }
  split.
  { intros i name Hi.
    exists (FundingRoute.lookup (FundingRoute.fetch (FundingRoute.heap st1) a)
              name).
    split; [| apply lookup_found].
    rewrite list_lookup_fmap, Hi. reflexivity. }
  split; [reflexivity |]. cbn.
  rewrite filter_found_partition. apply length_fmap.
Qed.

(** ** Error responses of the search route *)

(** C10, as stated, fails where its two conditions meet: a [type=search]
    request without a candidate or a state, arriving when no data can be
    loaded, is answered 404 and not 400, because the empty-collection check
    comes first. *)
Lemma missing_parameters_without_data_is_404 :
  ~ (forall (q : FundingRoute.Query) (now : Z) (file : option string)
       (st : FundingRoute.State),
       FundingRoute.searchType q = "search"%string ->
       truthy (FundingRoute.qCandidate q) = false ->
       truthy (FundingRoute.qState q) = false ->
       FundingRoute.status
         (@FundingRoute.GET sampleParser q now file st).1.1 = 400%nat).
Proof.
  intros Hall.
  specialize (Hall (query "search") 0%Z None FundingRoute.initial
                eq_refl eq_refl eq_refl).
  vm_compute in Hall. discriminate.
Qed.

(** C10, amended: the GET endpoint answers 404 with an error message and an
    empty [records] array whenever the loaded collection is empty, and,
    when the collection is not empty, 400 with an error message and an
    empty [records] array whenever [type] is 'search' and neither a
    candidate nor a state is supplied; in both cases nothing is computed
    from the collection and the state is the one the load left. *)
Theorem search_error_responses `{CampaignFinanceParser}
    (q : FundingRoute.Query) (now : Z) (file : option string)
    (st st1 : FundingRoute.State) (a : nat) (evs : list Event) :
  FundingRoute.loadFundingData now file st = (a, st1, evs) ->
  (FundingRoute.fetch (FundingRoute.heap st1) a = [] ->
   FundingRoute.GET q now file st
   = ({| FundingRoute.status := 404;
         FundingRoute.body :=
           FundingRoute.ErrorBody "Campaign finance data not available"
             (Some []) (Some 0%nat) |}, st1, evs)) /\
  (FundingRoute.fetch (FundingRoute.heap st1) a <> [] ->
   FundingRoute.searchType q = "search"%string ->
   truthy (FundingRoute.qCandidate q) = false ->
   truthy (FundingRoute.qState q) = false ->
   FundingRoute.GET q now file st
   = ({| FundingRoute.status := 400;
         FundingRoute.body :=
           FundingRoute.ErrorBody
             "Please provide candidate name or state parameter"
             (Some []) (Some 0%nat) |}, st1, evs)).
Proof.
  intros Hload. unfold FundingRoute.GET. rewrite Hload. split.
  - now intros ->.
  - intros Hne -> -> ->.
    destruct (FundingRoute.fetch (FundingRoute.heap st1) a); [congruence |].
    reflexivity.
Qed.

Lemma search_error_responses_sample :
  let load :=
    @FundingRoute.loadFundingData sampleParser 0 (Some twoSmiths)
      FundingRoute.initial in
  load = (load.1.1, load.1.2, load.2) /\
  (@FundingRoute.GET sampleParser (query "search") 0 (Some twoSmiths)
     FundingRoute.initial).1.1
  = {| FundingRoute.status := 400;
       FundingRoute.body :=
         FundingRoute.ErrorBody
           "Please provide candidate name or state parameter"
           (Some []) (Some 0%nat) |}.
Proof.
  intros load.
  assert (H1 : load = (load.1.1, load.1.2, load.2)) by (vm_compute; reflexivity).
  split; [exact H1 |].
  assert (H2 : FundingRoute.fetch (FundingRoute.heap load.1.2) load.1.1 <> [])
    by (vm_compute; discriminate).
  rewrite (proj2 (@search_error_responses sampleParser (query "search") 0
                    (Some twoSmiths) FundingRoute.initial load.1.2 load.1.1
                    load.2 H1) H2 eq_refl eq_refl eq_refl).
  reflexivity.
Defined.

(** ** The primary record *)

Section PrimaryRecord.
Context `{CampaignFinanceParser}.

Lemma memberRecords_cases (data : list FinancialRecord) (m : MemberRoute.Member) :
  let full :=
    findByCandidateName data
      (MemberRoute.lastName m ++ ", " ++ MemberRoute.firstName m)%string in
  let byLast := findByCandidateName data (MemberRoute.lastName m) in
  (full <> [] /\ MemberRoute.memberRecords data m = full) \/
  (full = [] /\ (length byLast <= 1)%nat /\
   MemberRoute.memberRecords data m = byLast) \/
  (full = [] /\ (1 < length byLast)%nat /\
   MemberRoute.memberRecords data m
   = List.filter (fun r => String.eqb (state r) (MemberRoute.memberState m))
       byLast).
Proof.
  intros full byLast. unfold MemberRoute.memberRecords. fold full byLast.
  destruct full as [| r full']; cbn [length Nat.eqb].
  - right. destruct (Nat.ltb_spec 1 (length byLast)).
    + right. now repeat split.
    + left. now repeat split.
  - left. now split.
Qed.

Lemma compute_primary (id : string) (db : string -> option MemberRoute.Member)
    (t1 t2 : Z) (file : option string) (st : MemberRoute.State)
    (m : MemberRoute.Member) (data : list FinancialRecord)
    (primary : FinancialRecord) :
  db id = Some m ->
  (MemberRoute.loadGlobalFundingData file st).1.1 = data ->
  data <> [] ->
  head (MemberRoute.memberRecords data m) = Some primary ->
  (MemberRoute.compute id db t1 t2 file st).1.1
  = {| MemberRoute.status := 200;
       MemberRoute.body :=
         MemberRoute.Funding (MemberRoute.memberInfo m)
           (MemberRoute.fundingAnalysis (MemberRoute.memberRecords data m) primary)
           primary t1 |}.
Proof.
  intros Hdb Hdata Hne Hhead. unfold MemberRoute.compute.
  rewrite Hdb.
  destruct (MemberRoute.loadGlobalFundingData file st) as [[loaded st1] evs].
  cbn in Hdata. subst loaded.
  destruct data as [| d data']; [congruence |]. cbn [length Nat.eqb].
  destruct (MemberRoute.memberRecords (d :: data') m) as [| p rest];
    [discriminate |].
  now injection Hhead as ->.
Qed.

End PrimaryRecord.

(** C6, as stated, fails in the member route.  For the member John Smith of
    California and a file holding "SMITH, ADAM" of Texas followed by
    "SMITH, JANE" of California, the search for "Smith, John" finds
    nothing, the search for "Smith" finds both, and the primary record is
    Jane's, which is element 0 of neither list. *)
Lemma primary_record_not_element_zero :
  let P := sampleParser in
  let data := [smithAdam; smithJane] in
  (MemberRoute.loadGlobalFundingData (Some twoSmiths) MemberRoute.initial).1.1
  = data /\
  MemberRoute.body
    (MemberRoute.GET "S000001" members 0 0 0 (Some twoSmiths)
       MemberRoute.initial).1.1
  = MemberRoute.Funding (MemberRoute.memberInfo johnSmith)
      (MemberRoute.fundingAnalysis [smithJane] smithJane) smithJane 0 /\
  findByCandidateName data "Smith, John" = [] /\
  findByCandidateName data "Smith" = [smithAdam; smithJane] /\
  ~ (head (findByCandidateName data "Smith, John") = Some smithJane \/
     head (findByCandidateName data "Smith") = Some smithJane).
Proof.
  cbv zeta. split; [vm_compute; reflexivity |].
  split; [vm_compute; reflexivity |].
  split; [vm_compute; reflexivity |].
  split; [vm_compute; reflexivity |].
  intros [Hhead | Hhead]; vm_compute in Hhead; discriminate.
Qed.

(** C6, amended: the bulk POST takes element 0 of the list that
    [findByCandidateName] returns for the requested name.  The member route
    takes element 0 of the list found for "Last, First"; when that list is
    empty it searches by last name and takes element 0 of that list, after
    narrowing it to the records of the member's state when it holds more
    than one record.  Neither route checks recency. *)
Theorem primary_record_selection `{CampaignFinanceParser}
    (data : list FinancialRecord) (name id : string)
    (db : string -> option MemberRoute.Member) (t0 t1 t2 : Z)
    (file : option string) (st : MemberRoute.State) (m : MemberRoute.Member)
    (primary : FinancialRecord) :
  db id = Some m ->
  MemberRoute.fundingCache st !! id = None ->
  (MemberRoute.loadGlobalFundingData file st).1.1 = data ->
  data <> [] ->
  head (MemberRoute.memberRecords data m) = Some primary ->
  let full :=
    findByCandidateName data
      (MemberRoute.lastName m ++ ", " ++ MemberRoute.firstName m)%string in
  let byLast := findByCandidateName data (MemberRoute.lastName m) in
  FundingRoute.resultRecord (FundingRoute.lookup data name)
  = FundingRoute.enrich <$> head (findByCandidateName data name) /\
  MemberRoute.body (MemberRoute.GET id db t0 t1 t2 file st).1.1
  = MemberRoute.Funding (MemberRoute.memberInfo m)
      (MemberRoute.fundingAnalysis (MemberRoute.memberRecords data m) primary)
      primary t1 /\
  ((full <> [] /\ head full = Some primary) \/
   (full = [] /\ (length byLast <= 1)%nat /\ head byLast = Some primary) \/
   (full = [] /\ (1 < length byLast)%nat /\
    head (List.filter
            (fun r => String.eqb (state r) (MemberRoute.memberState m)) byLast)
    = Some primary)).
Proof.
  intros Hdb Hmiss Hdata Hne Hhead full byLast.
  split.
  { unfold FundingRoute.lookup.
    now destruct (findByCandidateName data name). }
  split.
  { unfold MemberRoute.GET. rewrite Hmiss.
    now rewrite (compute_primary id db t1 t2 file st m data primary). }
  destruct (memberRecords_cases data m) as [(Hf & E) | [(Hf & Hl & E) | (Hf & Hl & E)]];
    fold full byLast in Hf, E; try fold byLast in Hl; rewrite E in Hhead.
  - left. now split.
  - right. left. now repeat split.
  - right. right. now repeat split.
Qed.

Lemma primary_record_selection_sample :
  (members "S000001"%string = Some johnSmith /\
   MemberRoute.fundingCache MemberRoute.initial !! "S000001"%string = None /\
   [smithAdam; smithJane] <> [] /\
   head (@MemberRoute.memberRecords sampleParser [smithAdam; smithJane] johnSmith)
   = Some smithJane) /\
  MemberRoute.body
    (@MemberRoute.GET sampleParser "S000001" members 0 1 2 (Some twoSmiths)
       MemberRoute.initial).1.1
  = MemberRoute.Funding (MemberRoute.memberInfo johnSmith)
      (MemberRoute.fundingAnalysis
         (@MemberRoute.memberRecords sampleParser [smithAdam; smithJane] johnSmith)
         smithJane)
      smithJane 1.
Proof.
  assert (H1 : members "S000001"%string = Some johnSmith) by reflexivity.
  assert (H2 : MemberRoute.fundingCache MemberRoute.initial !! "S000001"%string
               = None) by reflexivity.
  assert (H3 : (@MemberRoute.loadGlobalFundingData sampleParser (Some twoSmiths)
                  MemberRoute.initial).1.1 = [smithAdam; smithJane])
    by (vm_compute; reflexivity).
  assert (H4 : [smithAdam; smithJane] <> []) by discriminate.
  assert (H5 : head (@MemberRoute.memberRecords sampleParser
                       [smithAdam; smithJane] johnSmith) = Some smithJane)
    by (vm_compute; reflexivity).
  split; [repeat split; assumption |].
  exact (proj1 (proj2
           (@primary_record_selection sampleParser [smithAdam; smithJane]
              "Smith"%string "S000001"%string members 0 1 2 (Some twoSmiths)
              MemberRoute.initial johnSmith smithJane H1 H2 H3 H4 H5))).
Defined.

(** ** Worked examples from section 8 of the specification *)

(** The end-to-end scenario: receipts of 100,000 with 20,000 of transfers
    in give adjusted receipts of 80,000, an individual share of 62.5 and a
    PAC share of 37.5. *)
Example section8_scenario :
  let a := calculateFundingAnalytics scenario in
  adjustedTotalReceipts a == 80000 /\
  (exists q, percentage (Sources.individual (fundingSources a)) = Finite q /\
             q == 125 # 2) /\
  (exists q, percentage (Sources.pac (fundingSources a)) = Finite q /\
             q == 75 # 2).
Proof.
  vm_compute. split; [reflexivity |].
  split; eexists; split; reflexivity.
Qed.

(** Name search: "Smith, John" and "John Smith" both find "Smith, John A". *)
Example section8_name_search :
  let r := filing "Smith, John A" "VA" 0 0 0 0 0 in
  findByName [r] "Smith, John" = [r] /\ findByName [r] "John Smith" = [r].
Proof. vm_compute. split; reflexivity. Qed.

(** When transfers are reported beside the receipts, the named categories
    exceed the adjusted receipts, [other] is floored at zero and the shares
    add up to more than one hundred. *)
Example closure_fails_when_named_exceed_adjusted :
  0 < adjustedTotalReceipts (calculateFundingAnalytics transfersBeside) /\
  ~ percentageClosure transfersBeside.
Proof.
  split; [reflexivity |].
  intros (s & Hs & E). vm_compute in Hs. injection Hs as <-.
  vm_compute in E. discriminate.
Qed.

(** * Further properties *)

(** ** API paths *)

Lemma dropFinalSlash_app_slash (s : string) :
  Api.dropFinalSlash (s ++ "/") = s.
Proof.
  induction s as [| c s IH]; [reflexivity |].
  change (String c s ++ "/")%string with (String c (s ++ "/")).
  assert (E : exists d t, (s ++ "/")%string = String d t)
    by (destruct s; cbn; eauto).
  destruct E as (d & t & E). cbn [Api.dropFinalSlash].
  rewrite E, <- E. now rewrite IH.
Qed.

Lemma dropFinalSlash_id (s : string) :
  Api.endsWithSlash s = false -> Api.dropFinalSlash s = s.
Proof.
  induction s as [| c s IH]; [reflexivity |].
  cbn [Api.endsWithSlash Api.dropFinalSlash]. destruct s as [| d s].
  - now intros ->.
  - intros Hs. now rewrite IH.
Qed.

Lemma apiPath_slash (base path : string) :
  Api.apiPath base ("/" ++ path) = (base ++ "/" ++ path)%string.
Proof. unfold Api.apiPath. cbn. now destruct path. Qed.

Lemma apiPath_bare (base path : string) :
  String.prefix "/" path = false ->
  Api.apiPath base path = (base ++ "/" ++ path)%string.
Proof. unfold Api.apiPath. now intros ->. Qed.

(** X13: the final slash of the configured base and the leading slash of
    the path are both optional: for a base that does not end in a slash and
    a path that does not start with one, the four ways of writing them give
    the same URL, the base, one slash and the path. *)
Theorem apiPath_slashes (base path : string) :
  Api.endsWithSlash base = false ->
  String.prefix "/" path = false ->
  let url := (base ++ "/" ++ path)%string in
  Api.apiPath (Api.API_BASE (Some base)) path = url /\
  Api.apiPath (Api.API_BASE (Some base)) ("/" ++ path) = url /\
  Api.apiPath (Api.API_BASE (Some (base ++ "/")%string)) path = url /\
  Api.apiPath (Api.API_BASE (Some (base ++ "/")%string)) ("/" ++ path) = url.
Proof.
  intros Hbase Hpath url.
  assert (E1 : Api.API_BASE (Some base) = base).
  { unfold Api.API_BASE.
    destruct (String.eqb_spec base ""); [now subst |].
    now apply dropFinalSlash_id. }
  assert (E2 : Api.API_BASE (Some (base ++ "/")%string) = base).
  { unfold Api.API_BASE.
    destruct (String.eqb_spec (base ++ "/") ""); [now destruct base |].
    apply dropFinalSlash_app_slash. }
  rewrite E1, E2, !apiPath_slash, !apiPath_bare by assumption.
  now repeat split.
Qed.

Lemma apiPath_slashes_sample :
  (Api.endsWithSlash "https://agora.example" = false /\
   String.prefix "/" "api/funding" = false) /\
  Api.apiPath (Api.API_BASE (Some "https://agora.example/"%string)) "api/funding"
  = "https://agora.example/api/funding"%string.
Proof.
  assert (H2 : Api.endsWithSlash "https://agora.example" = false) by reflexivity.
  assert (H3 : String.prefix "/" "api/funding" = false) by reflexivity.
  split; [repeat split; assumption |].
  exact (proj1 (proj2 (proj2
           (apiPath_slashes "https://agora.example" "api/funding" H2 H3)))).
Defined.

(** Without a configured base the path is used as it is, with a leading
    slash added when it has none. *)
Lemma apiPath_no_base (path : string) :
  Api.apiPath (Api.API_BASE None) ("/" ++ path) = ("/" ++ path)%string /\
  (String.prefix "/" path = false ->
   Api.apiPath (Api.API_BASE None) path = ("/" ++ path)%string).
Proof.
  split; [apply apiPath_slash | apply apiPath_bare].
Qed.

(** ** Sorted prefixes *)

Section TopOf.
Context {A : Type} (key : A -> Q).

Lemma above_transitive : Transitive (above key).
Proof. intros x y z Hxy Hyz. unfold above in *. lra. Qed.

Lemma insertBy_at_head (x : A) (l : list A) :
  HdRel (above key) x l -> insertBy (descending key) x l = x :: l.
Proof.
  destruct 1 as [| y l Hxy]; [reflexivity |]. cbn.
  assert (Hb : Qle_bool (descending key x y) 0 = true)
    by (apply Qle_bool_iff; unfold descending, above in *; lra).
  now rewrite Hb.
Qed.

Lemma sortBy_of_sorted (l : list A) :
  Sorted (above key) l -> sortBy (descending key) l = l.
Proof.
  induction 1 as [| x l Hsorted IH Hhd]; [reflexivity |].
  cbn. fold (sortBy (descending key) l). rewrite IH.
  now apply insertBy_at_head.
Qed.

Lemma take_sorted (n : nat) (l : list A) :
  Sorted (above key) l -> Sorted (above key) (take n l).
Proof.
  intros Hsorted. revert n.
  induction Hsorted as [| x l Hsorted IH Hhd]; intros [| n]; cbn;
    try constructor; [apply IH |].
  destruct Hhd as [| y l Hxy]; [destruct n; constructor |].
  destruct n; constructor. exact Hxy.
Qed.

Lemma take_above_drop (n : nat) (l : list A) :
  Sorted (above key) l ->
  forall x y, In x (take n l) -> In y (drop n l) -> key y <= key x.
Proof.
  intros Hsorted. apply (Sorted_StronglySorted above_transitive) in Hsorted.
  revert n. induction Hsorted as [| a l Hsorted IH Hall]; intros n x y.
  - now destruct n.
  - destruct n as [| n]; [intros [] |]. cbn. intros [<- | Hx] Hy.
    + rewrite Forall_forall in Hall. apply Hall, list_elem_of_In.
      rewrite <- (take_drop n l). apply in_or_app. now right.
    + now apply (IH n).
Qed.

End TopOf.

Lemma slice_from_zero {A : Type} (n : nat) (l : list A) : slice 0 n l = take n l.
Proof. unfold slice. now rewrite Nat.sub_0_r. Qed.

Lemma topOf_slice (key : FinancialRecord -> Q) (n : nat)
    (pool : list FinancialRecord) :
  topOf key n pool (slice 0 n (sortBy (descending key) pool)).
Proof.
  rewrite slice_from_zero. unfold topOf.
  pose proof (sortBy_perm key pool) as Hperm.
  pose proof (sortBy_sorted key pool) as Hsorted.
  split; [rewrite length_take; now rewrite <- (Permutation_length Hperm) |].
  split; [now apply take_sorted |].
  exists (drop n (sortBy (descending key) pool)).
  split; [now rewrite take_drop |].
  now apply take_above_drop.
Qed.

Lemma filter_above_threshold (key : FinancialRecord -> Q) (threshold : Q)
    (data : list FinancialRecord) (r : FinancialRecord) :
  In r (List.filter (fun r => negb (Qle_bool (key r) threshold)) data) ->
  In r data /\ threshold < key r.
Proof.
  rewrite filter_In. intros [Hin Hkey]. split; [exact Hin |].
  apply Qnot_le_lt. intros Hle. apply Qle_bool_iff in Hle.
  now rewrite Hle in Hkey.
Qed.

(** ** The search route: what a request changes *)

Section SearchFrame.
Context `{CampaignFinanceParser}.

Lemma readAndParse_keeps_arrays (now : Z) (file : option string)
    (st : FundingRoute.State) (b : nat) (l : list FinancialRecord) :
  FundingRoute.heap st !! b = Some l ->
  FundingRoute.heap (FundingRoute.readAndParse now file st).1.2 !! b = Some l.
Proof.
  intros Hb.
  assert (Hfresh : fresh (dom (FundingRoute.heap st)) <> b).
  { intros <-. apply (is_fresh (dom (FundingRoute.heap st))).
    apply elem_of_dom. now exists l. }
  unfold FundingRoute.readAndParse, FundingRoute.alloc.
  destruct file as [raw |]; [destruct (parseAllRecords raw) |]; cbn;
    now rewrite lookup_insert_ne.
Qed.

Lemma load_keeps_arrays (now : Z) (file : option string)
    (st : FundingRoute.State) (b : nat) (l : list FinancialRecord) :
  FundingRoute.heap st !! b = Some l ->
  FundingRoute.heap (FundingRoute.loadFundingData now file st).1.2 !! b = Some l.
Proof.
  intros Hb. unfold FundingRoute.loadFundingData.
  destruct (FundingRoute.cachedFundingData st);
    [destruct (_ <? _)%Z |]; try exact Hb; now apply readAndParse_keeps_arrays.
Qed.

Lemma GET_state (q : FundingRoute.Query) (now : Z) (file : option string)
    (st : FundingRoute.State) :
  let load := FundingRoute.loadFundingData now file st in
  (FundingRoute.GET q now file st).1.2
  = if negb (length (FundingRoute.fetch (FundingRoute.heap load.1.2) load.1.1)
             =? 0)%nat
       && negb (String.eqb (FundingRoute.searchType q) "search")
       && String.eqb (FundingRoute.searchType q) "analytics"
    then (FundingRoute.analyticsView load.1.1 load.1.2).2
    else load.1.2.
Proof.
  cbn zeta. unfold FundingRoute.GET.
  destruct (FundingRoute.loadFundingData now file st) as [[a st1] evs]. cbn.
  destruct (length (FundingRoute.fetch (FundingRoute.heap st1) a) =? 0)%nat;
    [reflexivity |]. cbn.
  destruct (String.eqb (FundingRoute.searchType q) "search"); cbn.
  - now destruct (truthy _); [| destruct (truthy _)].
  - destruct (String.eqb (FundingRoute.searchType q) "analytics"); cbn;
      [reflexivity |].
    now destruct (String.eqb (FundingRoute.searchType q) "top-donors").
Qed.

Lemma GET_events (q : FundingRoute.Query) (now : Z) (file : option string)
    (st : FundingRoute.State) :
  (FundingRoute.GET q now file st).2
  = (FundingRoute.loadFundingData now file st).2.
Proof.
  unfold FundingRoute.GET.
  destruct (FundingRoute.loadFundingData now file st) as [[a st1] evs]. cbn.
  destruct (length _ =? 0)%nat; [reflexivity |].
  destruct (String.eqb (FundingRoute.searchType q) "search").
  - now destruct (truthy _); [| destruct (truthy _)].
  - destruct (String.eqb (FundingRoute.searchType q) "analytics");
      [reflexivity |].
    now destruct (String.eqb (FundingRoute.searchType q) "top-donors").
Qed.

Lemma POST_state (c : FundingRoute.Candidates) (now : Z) (file : option string)
    (st : FundingRoute.State) :
  (FundingRoute.POST c now file st).1.2
  = match c with
    | FundingRoute.NotAnArray => st
    | FundingRoute.Names _ => (FundingRoute.loadFundingData now file st).1.2
    end.
Proof.
  unfold FundingRoute.POST. destruct c; [reflexivity |].
  now destruct (FundingRoute.loadFundingData now file st) as [[a st1] evs].
Qed.

End SearchFrame.

(** X1: a request other than [type=analytics], and every bulk POST, leaves
    every array that exists untouched, the cached one included: the state
    after a GET is the state its load left, and the load only adds arrays. *)
Theorem only_analytics_reorders `{CampaignFinanceParser}
    (q : FundingRoute.Query) (c : FundingRoute.Candidates) (now : Z)
    (file : option string) (st : FundingRoute.State) (b : nat)
    (l : list FinancialRecord) :
  FundingRoute.searchType q <> "analytics"%string ->
  FundingRoute.heap st !! b = Some l ->
  (FundingRoute.GET q now file st).1.2
  = (FundingRoute.loadFundingData now file st).1.2 /\
  FundingRoute.heap (FundingRoute.GET q now file st).1.2 !! b = Some l /\
  FundingRoute.heap (FundingRoute.POST c now file st).1.2 !! b = Some l.
Proof.
  intros Htype Hb.
  assert (Hget : (FundingRoute.GET q now file st).1.2
                 = (FundingRoute.loadFundingData now file st).1.2).
  { rewrite GET_state. cbn zeta.
    destruct (String.eqb_spec (FundingRoute.searchType q) "analytics");
      [contradiction |].
    now rewrite andb_false_r. }
  split; [exact Hget |]. rewrite Hget, POST_state.
  split; [now apply load_keeps_arrays |].
  destruct c; [exact Hb | now apply load_keeps_arrays].
Qed.

Lemma only_analytics_reorders_sample :
  (FundingRoute.searchType (query "top-donors") <> "analytics"%string /\
   FundingRoute.heap searchLoaded !! 0%nat = Some [smithAdam; smithJane]) /\
  FundingRoute.heap
    (@FundingRoute.GET sampleParser (query "top-donors") 5000 None
       searchLoaded).1.2 !! 0%nat
  = Some [smithAdam; smithJane].
Proof.
  assert (H1 : FundingRoute.searchType (query "top-donors") <> "analytics"%string)
    by discriminate.
  assert (H2 : FundingRoute.heap searchLoaded !! 0%nat
               = Some [smithAdam; smithJane]) by (vm_compute; reflexivity).
  split; [split; assumption |].
  exact (proj1 (proj2
           (@only_analytics_reorders sampleParser (query "top-donors")
              FundingRoute.NotAnArray 5000 None searchLoaded 0%nat
              [smithAdam; smithJane] H1 H2))).
Defined.

(** ** The search route: the cache invariant *)

Section CacheInvariant.
Context `{CampaignFinanceParser}.

Lemma readAndParse_backed (now : Z) (file : option string)
    (st : FundingRoute.State) :
  cacheBacked st -> cacheBacked (FundingRoute.readAndParse now file st).1.2.
Proof.
  intros Hst c Hc.
  assert (Hold : FundingRoute.cachedFundingData st = Some c ->
            exists raw records cached,
              parseAllRecords raw = Some records /\
              <[fresh (dom (FundingRoute.heap st)) := []]> (FundingRoute.heap st)
                !! c = Some cached /\
              Permutation records cached).
  { intros Hcst. destruct (Hst c Hcst) as (raw & records & cached & Hp & Hh & Hperm).
    exists raw, records, cached. split; [exact Hp |]. split; [| exact Hperm].
    rewrite lookup_insert_ne; [exact Hh |].
    intros <-. apply (is_fresh (dom (FundingRoute.heap st))).
    apply elem_of_dom. now exists cached. }
  revert Hc. unfold FundingRoute.readAndParse, FundingRoute.alloc.
  destruct file as [raw |]; [destruct (parseAllRecords raw) as [records |] eqn:Hp |];
    cbn; try exact Hold.
  intros [= <-]. exists raw, records, records.
  split; [exact Hp |]. split; [apply lookup_insert_eq | reflexivity].
Qed.

Lemma load_backed (now : Z) (file : option string) (st : FundingRoute.State) :
  cacheBacked st -> cacheBacked (FundingRoute.loadFundingData now file st).1.2.
Proof.
  intros Hst. unfold FundingRoute.loadFundingData.
  destruct (FundingRoute.cachedFundingData st);
    [destruct (_ <? _)%Z |]; try exact Hst; now apply readAndParse_backed.
Qed.

Lemma analyticsView_backed (a : nat) (st : FundingRoute.State) :
  cacheBacked st -> cacheBacked (FundingRoute.analyticsView a st).2.
Proof.
  intros Hst c Hc. cbn in Hc.
  destruct (Hst c Hc) as (raw & records & cached & Hp & Hh & Hperm).
  cbn. destruct (decide (a = c)) as [-> | Hne].
  - exists raw, records, (sortBy (descending totalReceipts) cached).
    split; [exact Hp |]. unfold FundingRoute.fetch. rewrite Hh. cbn.
    split; [apply lookup_insert_eq |].
    now rewrite <- (sortBy_perm totalReceipts cached).
  - exists raw, records, cached. split; [exact Hp |].
    split; [now rewrite lookup_insert_ne | exact Hperm].
Qed.

End CacheInvariant.

(** X7: in every state the search route can reach, the cache, when set,
    points at an array that exists and holds exactly the records of one
    parsed file, possibly in a different order: no request loses,
    duplicates or invents a cached record. *)
Theorem cache_holds_a_parsed_file `{CampaignFinanceParser}
    (st : FundingRoute.State) :
  reachable st -> cacheBacked st.
Proof.
  induction 1 as [| q now file st Hreach IH | c now file st Hreach IH].
  - intros a Ha. discriminate.
  - rewrite GET_state. cbn zeta.
    destruct (_ && _); [apply analyticsView_backed |]; now apply load_backed.
  - rewrite POST_state. destruct c; [exact IH | now apply load_backed].
Qed.

Lemma cache_holds_a_parsed_file_sample :
  @reachable sampleParser searchLoaded /\ @cacheBacked sampleParser searchLoaded.
Proof.
  assert (Hreach : @reachable sampleParser searchLoaded)
    by (apply (@reach_GET sampleParser), (@reach_initial sampleParser)).
  split; [exact Hreach |].
  exact (@cache_holds_a_parsed_file sampleParser searchLoaded Hreach).
Defined.

(** ** The search route: status codes *)

(** X8: the status of a GET is decided by the loaded collection and the
    query alone: 404 when the collection is empty; otherwise 200 for a
    search with a candidate or a state, for the analytics view and for the
    top-donors view, and 400 for everything else. *)
Theorem GET_status `{CampaignFinanceParser} (q : FundingRoute.Query) (now : Z)
    (file : option string) (st : FundingRoute.State) :
  let load := FundingRoute.loadFundingData now file st in
  FundingRoute.status (FundingRoute.GET q now file st).1.1
  = match FundingRoute.fetch (FundingRoute.heap load.1.2) load.1.1 with
    | [] => 404%nat
    | _ :: _ => if answerable q then 200%nat else 400%nat
    end.
Proof.
  cbn zeta. unfold FundingRoute.GET, answerable.
  destruct (FundingRoute.loadFundingData now file st) as [[a st1] evs]. cbn.
  destruct (FundingRoute.fetch (FundingRoute.heap st1) a) as [| r rs];
    [reflexivity |]. cbn.
  destruct (String.eqb_spec (FundingRoute.searchType q) "search") as [-> | Hs];
    cbn.
  - now destruct (truthy _); [| destruct (truthy _)].
  - destruct (String.eqb (FundingRoute.searchType q) "analytics");
      [reflexivity |].
    now destruct (String.eqb (FundingRoute.searchType q) "top-donors").
Qed.

(** ** The search route: loads *)

(** X6: a load that finds the cache unset or expired and parses the file
    stores the parsed records with the time of the load, so that every load
    within the following hour returns these records from the same array
    without reading the file, whatever the file holds by then. *)
Theorem load_then_hit `{CampaignFinanceParser} (now later : Z)
    (raw : string) (file' : option string) (records : list FinancialRecord)
    (st : FundingRoute.State) :
  cacheValid now st = false ->
  parseAllRecords raw = Some records ->
  (later - now < FundingRoute.CACHE_DURATION)%Z ->
  let first := FundingRoute.loadFundingData now (Some raw) st in
  FundingRoute.fetch (FundingRoute.heap first.1.2) first.1.1 = records /\
  first.2 = [ReadFile; ParseAll raw] /\
  FundingRoute.loadFundingData later file' first.1.2
  = (first.1.1, first.1.2, []).
Proof.
  intros Hinvalid Hparse Hlater. cbn zeta.
  rewrite load_invalid by assumption.
  unfold FundingRoute.readAndParse. rewrite Hparse. cbn.
  split; [apply alloc_fetch |]. split; [reflexivity |].
  unfold FundingRoute.loadFundingData. cbn.
  now destruct (Z.ltb_spec (later - now) FundingRoute.CACHE_DURATION); [| lia].
Qed.

Lemma load_then_hit_sample :
  (cacheValid 0 FundingRoute.initial = false /\
   @parseAllRecords sampleParser twoSmiths = Some [smithAdam; smithJane] /\
   (3599999 - 0 < FundingRoute.CACHE_DURATION)%Z) /\
  FundingRoute.fetch
    (FundingRoute.heap
       (@FundingRoute.loadFundingData sampleParser 0 (Some twoSmiths)
          FundingRoute.initial).1.2)
    (@FundingRoute.loadFundingData sampleParser 0 (Some twoSmiths)
       FundingRoute.initial).1.1
  = [smithAdam; smithJane].
Proof.
  assert (H1 : cacheValid 0 FundingRoute.initial = false) by reflexivity.
  assert (H2 : @parseAllRecords sampleParser twoSmiths
               = Some [smithAdam; smithJane]) by (vm_compute; reflexivity).
  assert (H3 : (3599999 - 0 < FundingRoute.CACHE_DURATION)%Z)
    by (vm_compute; reflexivity).
  split; [repeat split; assumption |].
  exact (proj1 (@load_then_hit sampleParser 0 3599999 twoSmiths None
                  [smithAdam; smithJane] FundingRoute.initial H1 H2 H3)).
Defined.

(** ** The search route: the analytics view *)

Section AnalyticsView.
Context `{CampaignFinanceParser}.

Lemma tally_same (k : string) (acc : gmap string FundingRoute.Tally) :
  FundingRoute.tally k acc !! k
  = if String.eqb k "__proto__" then acc !! k
    else Some (FundingRoute.bump k (acc !! k)).
Proof.
  unfold FundingRoute.tally. destruct (String.eqb k "__proto__");
    [reflexivity | apply lookup_insert_eq].
Qed.

Lemma tally_other (k k' : string) (acc : gmap string FundingRoute.Tally) :
  k <> k' -> FundingRoute.tally k acc !! k' = acc !! k'.
Proof.
  intros Hne. unfold FundingRoute.tally. destruct (String.eqb k "__proto__");
    [reflexivity | now apply lookup_insert_ne].
Qed.

Lemma countBy_fold (key : FinancialRecord -> string) (k : string)
    (data : list FinancialRecord) (acc : gmap string FundingRoute.Tally) :
  fold_left (fun acc r => FundingRoute.tally (key r) acc) data acc !! k
  = Nat.iter (countOf key k data)
      (fun own => if String.eqb k "__proto__" then own
                  else Some (FundingRoute.bump k own))
      (acc !! k).
Proof.
  revert acc. induction data as [| r data IH]; intros acc; [reflexivity |].
  cbn [fold_left]. rewrite IH. unfold countOf. cbn [List.filter].
  destruct (String.eqb_spec (key r) k) as [-> | Hne].
  - cbn [length]. now rewrite Nat.iter_succ_r, tally_same.
  - now rewrite tally_other.
Qed.

Lemma countBy_lookup (key : FinancialRecord -> string) (k : string)
    (data : list FinancialRecord) :
  FundingRoute.countBy key data !! k = tallyOf k (countOf key k data).
Proof.
  unfold FundingRoute.countBy. rewrite countBy_fold, lookup_empty.
  unfold tallyOf. generalize (countOf key k data). intros n.
  induction n as [| n IH].
  - cbn. now destruct (String.eqb k "__proto__").
  - rewrite Nat.iter_succ, IH.
    destruct (String.eqb k "__proto__"); [reflexivity |].
    destruct n; unfold FundingRoute.bump;
      now destruct (FundingRoute.inheritedFunction k).
Qed.

Lemma analyticsView_twice (a : nat) (st : FundingRoute.State) :
  (FundingRoute.analyticsView a (FundingRoute.analyticsView a st).2).2
  = (FundingRoute.analyticsView a st).2.
Proof.
  unfold FundingRoute.analyticsView.
  cbn [snd FundingRoute.heap FundingRoute.cachedFundingData
         FundingRoute.cacheTimestamp].
  unfold FundingRoute.fetch at 1. rewrite lookup_insert_eq.
  cbn [default from_option]. unfold id.
  rewrite (sortBy_of_sorted totalReceipts
             (sortBy (descending totalReceipts)
                (FundingRoute.fetch (FundingRoute.heap st) a)))
    by apply sortBy_sorted.
  now rewrite insert_insert_eq.
Qed.

End AnalyticsView.

(** X5: sorting the cache is idempotent.  After one [type=analytics]
    request over a non-empty collection, a further analytics request
    within the cache's hour reads no file and leaves the state, and with it
    the order of the cached array, as the first request left it. *)
Theorem analytics_twice `{CampaignFinanceParser}
    (q q' : FundingRoute.Query) (now later : Z) (file file' : option string)
    (st st1 : FundingRoute.State) (a : nat) (evs : list Event) :
  FundingRoute.searchType q = "analytics"%string ->
  FundingRoute.searchType q' = "analytics"%string ->
  FundingRoute.loadFundingData now file st = (a, st1, evs) ->
  FundingRoute.fetch (FundingRoute.heap st1) a <> [] ->
  (later - FundingRoute.cacheTimestamp st1 < FundingRoute.CACHE_DURATION)%Z ->
  let st2 := (FundingRoute.GET q now file st).1.2 in
  (FundingRoute.GET q' later file' st2).1.2 = st2 /\
  (FundingRoute.GET q' later file' st2).2 = [].
Proof.
  intros Hq Hq' Hload Hne Hlater st2.
  pose proof (load_nonempty_is_cached _ _ _ _ _ _ Hload Hne) as Hcached.
  assert (Hst2 : st2 = (FundingRoute.analyticsView a st1).2).
  { unfold st2. now rewrite (GET_analytics q now file st st1 a evs). }
  assert (Hvalid : cacheValid later st2 = true).
  { rewrite Hst2. unfold cacheValid, FundingRoute.analyticsView.
    cbn [snd FundingRoute.cachedFundingData FundingRoute.cacheTimestamp].
    rewrite Hcached. now apply Z.ltb_lt. }
  destruct (load_valid later file' st2 Hvalid) as (c & Hc & Hhit).
  assert (c = a) as ->.
  { rewrite Hst2 in Hc. cbn in Hc. congruence. }
  assert (Hsorted : FundingRoute.fetch (FundingRoute.heap st2) a
                    = sortBy (descending totalReceipts)
                        (FundingRoute.fetch (FundingRoute.heap st1) a)).
  { rewrite Hst2. cbn. unfold FundingRoute.fetch at 1.
    now rewrite lookup_insert_eq. }
  assert (Hne2 : FundingRoute.fetch (FundingRoute.heap st2) a <> []).
  { rewrite Hsorted. intros E. apply Hne.
    apply Permutation_nil. rewrite <- E. symmetry. apply sortBy_perm. }
  rewrite (GET_analytics q' later file' st2 st2 a [] Hq' Hhit Hne2).
  cbn [fst snd]. split; [| reflexivity].
  rewrite Hst2. apply analyticsView_twice.
Qed.

Lemma analytics_twice_sample :
  let load :=
    @FundingRoute.loadFundingData sampleParser 0 (Some janeThenAdam)
      FundingRoute.initial in
  let st2 :=
    (@FundingRoute.GET sampleParser (query "analytics") 0 (Some janeThenAdam)
       FundingRoute.initial).1.2 in
  (load = (load.1.1, load.1.2, load.2) /\
   FundingRoute.fetch (FundingRoute.heap load.1.2) load.1.1 <> [] /\
   (60000 - FundingRoute.cacheTimestamp load.1.2
    < FundingRoute.CACHE_DURATION)%Z) /\
  (@FundingRoute.GET sampleParser (query "analytics") 60000 None st2).1.2 = st2.
Proof.
  intros load st2.
  assert (H1 : load = (load.1.1, load.1.2, load.2)) by (vm_compute; reflexivity).
  assert (H2 : FundingRoute.fetch (FundingRoute.heap load.1.2) load.1.1 <> [])
    by (vm_compute; discriminate).
  assert (H3 : (60000 - FundingRoute.cacheTimestamp load.1.2
                < FundingRoute.CACHE_DURATION)%Z) by (vm_compute; reflexivity).
  split; [repeat split; assumption |].
  exact (proj1 (@analytics_twice sampleParser (query "analytics")
                  (query "analytics") 0 60000 (Some janeThenAdam) None
                  FundingRoute.initial load.1.2 load.1.1 load.2
                  eq_refl eq_refl H1 H2 H3)).
Defined.

Lemma topOf_qualifying (key : FinancialRecord -> Q) (threshold : Q) (n : nat)
    (data : list FinancialRecord) :
  let top := slice 0 n (sortBy (descending key) (qualifying key threshold data)) in
  topOf key n (qualifying key threshold data) top /\
  (forall r, In r top -> In r data /\ threshold < key r).
Proof.
  cbn zeta. split; [apply topOf_slice |].
  intros r Hr. apply filter_above_threshold.
  rewrite slice_from_zero in Hr.
  apply (Permutation_in r (Permutation_sym (sortBy_perm key _))).
  rewrite <- (take_drop n (sortBy _ _)). apply in_or_app. now left.
Qed.

(** X3: the analytics view lists the highest-funded candidates.  Its
    [topFundedCandidates] are built from the first ten records (all of
    them, if there are fewer) of the collection in descending order of
    [totalReceipts]; no record left out has more receipts than a listed
    one; and the list is the head of the cached array as the request
    leaves it. *)
Theorem analytics_top_ten `{CampaignFinanceParser}
    (q : FundingRoute.Query) (now : Z) (file : option string)
    (st st1 : FundingRoute.State) (a : nat) (evs : list Event) :
  FundingRoute.searchType q = "analytics"%string ->
  FundingRoute.loadFundingData now file st = (a, st1, evs) ->
  FundingRoute.fetch (FundingRoute.heap st1) a <> [] ->
  let data := FundingRoute.fetch (FundingRoute.heap st1) a in
  let st2 := (FundingRoute.GET q now file st).1.2 in
  exists overview parties states top,
    (FundingRoute.GET q now file st).1.1
    = {| FundingRoute.status := 200;
         FundingRoute.body :=
           FundingRoute.AnalyticsBody overview parties states
             (FundingRoute.topFundedRow <$> top) |} /\
    topOf totalReceipts 10 data top /\
    top = take 10 (FundingRoute.fetch (FundingRoute.heap st2) a).
Proof.
  intros Hq Hload Hne data st2. unfold st2.
  rewrite (GET_analytics q now file st st1 a evs) by assumption.
  cbn [fst snd]. unfold FundingRoute.analyticsView. cbn [fst snd].
  eexists _, _, _, _. split; [reflexivity |].
  split; [apply topOf_slice |].
  cbn [FundingRoute.heap]. unfold FundingRoute.fetch at 2.
  rewrite lookup_insert_eq. apply slice_from_zero.
Qed.

Lemma analytics_top_ten_sample :
  let load :=
    @FundingRoute.loadFundingData sampleParser 0 (Some janeThenAdam)
      FundingRoute.initial in
  (load = (load.1.1, load.1.2, load.2) /\
   FundingRoute.fetch (FundingRoute.heap load.1.2) load.1.1 <> []) /\
  exists overview parties states top,
    (@FundingRoute.GET sampleParser (query "analytics") 0 (Some janeThenAdam)
       FundingRoute.initial).1.1
    = {| FundingRoute.status := 200;
         FundingRoute.body :=
           FundingRoute.AnalyticsBody overview parties states
             (FundingRoute.topFundedRow <$> top) |} /\
    topOf totalReceipts 10
      (FundingRoute.fetch (FundingRoute.heap load.1.2) load.1.1) top.
Proof.
  intros load.
  assert (H1 : load = (load.1.1, load.1.2, load.2)) by (vm_compute; reflexivity).
  assert (H2 : FundingRoute.fetch (FundingRoute.heap load.1.2) load.1.1 <> [])
    by (vm_compute; discriminate).
  split; [split; assumption |].
  destruct (@analytics_top_ten sampleParser (query "analytics") 0
              (Some janeThenAdam) FundingRoute.initial load.1.2 load.1.1 load.2
              eq_refl H1 H2)
    as (overview & parties & states & top & Hbody & Htop & _).
  now exists overview, parties, states, top.
Defined.

Lemma tallyOf_ordinary (k : string) (count n : nat) :
  ordinaryKey k = true ->
  tallyOf k count = Some (FundingRoute.Count n) <-> n = count /\ (0 < n)%nat.
Proof.
  unfold ordinaryKey, tallyOf. intros [Hp Hi]%andb_prop.
  apply negb_true_iff in Hp, Hi. rewrite Hp, Hi.
  destruct count; split.
  - discriminate.
  - intros [-> Hpos]. lia.
  - intros [= <-]. split; [reflexivity | lia].
  - now intros [-> _].
Qed.

(** X4: the analytics view counts every record once.  [totalCandidates] is
    the size of the collection.  [partyBreakdown] and [stateBreakdown] map
    a party or a state that is not the name of a property objects inherit
    to the number of records that carry it, with no entry when no record
    carries it.  A party or state that names an inherited function
    ("constructor", "toString", ...) gets a text entry in place of the
    number, and "__proto__" never gets an entry. *)
Theorem analytics_breakdowns `{CampaignFinanceParser}
    (q : FundingRoute.Query) (now : Z) (file : option string)
    (st st1 : FundingRoute.State) (a : nat) (evs : list Event) :
  FundingRoute.searchType q = "analytics"%string ->
  FundingRoute.loadFundingData now file st = (a, st1, evs) ->
  FundingRoute.fetch (FundingRoute.heap st1) a <> [] ->
  let data := FundingRoute.fetch (FundingRoute.heap st1) a in
  exists overview parties states rows,
    FundingRoute.body (FundingRoute.GET q now file st).1.1
    = FundingRoute.AnalyticsBody overview parties states rows /\
    FundingRoute.totalCandidates overview = length data /\
    (forall k, parties !! k = tallyOf k (countOf party k data)) /\
    (forall k, states !! k = tallyOf k (countOf state k data)) /\
    (forall k n, ordinaryKey k = true ->
       (parties !! k = Some (FundingRoute.Count n)
        <-> n = countOf party k data /\ (0 < n)%nat) /\
       (states !! k = Some (FundingRoute.Count n)
        <-> n = countOf state k data /\ (0 < n)%nat)).
Proof.
  intros Hq Hload Hne data.
  rewrite (GET_analytics q now file st st1 a evs) by assumption.
  cbn [fst snd]. unfold FundingRoute.analyticsView. cbn [fst snd FundingRoute.body].
  eexists _, _, _, _. split; [reflexivity |]. split; [reflexivity |].
  fold data.
  split; [intros k; apply countBy_lookup |].
  split; [intros k; apply countBy_lookup |].
  intros k n Hk. rewrite !countBy_lookup.
  split; now apply tallyOf_ordinary.
Qed.

Lemma analytics_breakdowns_sample :
  let load :=
    @FundingRoute.loadFundingData sampleParser 0 (Some twoSmiths)
      FundingRoute.initial in
  (load = (load.1.1, load.1.2, load.2) /\
   FundingRoute.fetch (FundingRoute.heap load.1.2) load.1.1 <> []) /\
  exists overview parties states rows,
    FundingRoute.body
      (@FundingRoute.GET sampleParser (query "analytics") 0 (Some twoSmiths)
         FundingRoute.initial).1.1
    = FundingRoute.AnalyticsBody overview parties states rows /\
    FundingRoute.totalCandidates overview
    = length (FundingRoute.fetch (FundingRoute.heap load.1.2) load.1.1).
Proof.
  intros load.
  assert (H1 : load = (load.1.1, load.1.2, load.2)) by (vm_compute; reflexivity).
  assert (H2 : FundingRoute.fetch (FundingRoute.heap load.1.2) load.1.1 <> [])
    by (vm_compute; discriminate).
  split; [split; assumption |].
  destruct (@analytics_breakdowns sampleParser (query "analytics") 0
              (Some twoSmiths) FundingRoute.initial load.1.2 load.1.1 load.2
              eq_refl H1 H2)
    as (overview & parties & states & rows & Hbody & Htotal & _).
  now exists overview, parties, states, rows.
Defined.

(** ** The search route: the top-donors view *)

(** X2: each list of the top-donors view holds at most twenty rows, built
    from the records above its threshold (PAC money above 100,000,
    candidate money above 100,000, individual money above 50,000), in
    descending order of that amount; every listed record is in the
    collection and above the threshold, and no record above the threshold
    that is left out has more than a listed one.  The state is the one the
    load left. *)
Theorem top_donors_lists `{CampaignFinanceParser}
    (q : FundingRoute.Query) (now : Z) (file : option string)
    (st st1 : FundingRoute.State) (a : nat) (evs : list Event) :
  FundingRoute.searchType q = "top-donors"%string ->
  FundingRoute.loadFundingData now file st = (a, st1, evs) ->
  FundingRoute.fetch (FundingRoute.heap st1) a <> [] ->
  let data := FundingRoute.fetch (FundingRoute.heap st1) a in
  let self := fun r => candidateContributions r + candidateLoans r in
  exists highPac selfFunded grassroots,
    FundingRoute.GET q now file st
    = ({| FundingRoute.status := 200;
          FundingRoute.body :=
            FundingRoute.TopDonorsBody
              (FundingRoute.highPacRow <$> highPac)
              (FundingRoute.selfFundedRow <$> selfFunded)
              (FundingRoute.grassrootsRow <$> grassroots) |}, st1, evs) /\
    (topOf pacContributions 20 (qualifying pacContributions 100000 data) highPac /\
     forall r, In r highPac -> In r data /\ 100000 < pacContributions r) /\
    (topOf self 20 (qualifying self 100000 data) selfFunded /\
     forall r, In r selfFunded -> In r data /\ 100000 < self r) /\
    (topOf individualContributions 20
       (qualifying individualContributions 50000 data) grassroots /\
     forall r, In r grassroots -> In r data /\ 50000 < individualContributions r).
Proof.
  intros Hq Hload Hne data self.
  exists (FundingRoute.highPacCandidates data),
    (FundingRoute.selfFundedCandidates data),
    (FundingRoute.grassrootsCandidates data).
  split.
  - unfold FundingRoute.GET. rewrite Hload, Hq. subst data.
    destruct (FundingRoute.fetch (FundingRoute.heap st1) a);
      [congruence | reflexivity].
  - split; [| split].
    + apply (topOf_qualifying pacContributions 100000 20 data).
    + apply (topOf_qualifying self 100000 20 data).
    + apply (topOf_qualifying individualContributions 50000 20 data).
Qed.

Lemma top_donors_lists_sample :
  let load :=
    @FundingRoute.loadFundingData sampleParser 0 (Some twoSmiths)
      FundingRoute.initial in
  (load = (load.1.1, load.1.2, load.2) /\
   FundingRoute.fetch (FundingRoute.heap load.1.2) load.1.1 <> []) /\
  exists highPac selfFunded grassroots,
    @FundingRoute.GET sampleParser (query "top-donors") 0 (Some twoSmiths)
      FundingRoute.initial
    = ({| FundingRoute.status := 200;
          FundingRoute.body :=
            FundingRoute.TopDonorsBody
              (FundingRoute.highPacRow <$> highPac)
              (FundingRoute.selfFundedRow <$> selfFunded)
              (FundingRoute.grassrootsRow <$> grassroots) |},
       load.1.2, load.2).
Proof.
  intros load.
  assert (H1 : load = (load.1.1, load.1.2, load.2)) by (vm_compute; reflexivity).
  assert (H2 : FundingRoute.fetch (FundingRoute.heap load.1.2) load.1.1 <> [])
    by (vm_compute; discriminate).
  split; [split; assumption |].
  destruct (@top_donors_lists sampleParser (query "top-donors") 0
              (Some twoSmiths) FundingRoute.initial load.1.2 load.1.1 load.2
              eq_refl H1 H2)
    as (highPac & selfFunded & grassroots & Hget & _).
  now exists highPac, selfFunded, grassroots.
Defined.

(** ** The member route: the result cache *)

Section MemberCache.
Context `{CampaignFinanceParser}.

Lemma GET_miss (id : string) (db : string -> option MemberRoute.Member)
    (t0 t1 t2 : Z) (file : option string) (st : MemberRoute.State) :
  resultCached t0 id st = false ->
  MemberRoute.GET id db t0 t1 t2 file st
  = MemberRoute.compute id db t1 t2 file st.
Proof.
  unfold resultCached, MemberRoute.GET.
  destruct (MemberRoute.fundingCache st !! id) as [[data timestamp] |];
    [| reflexivity].
  now intros ->.
Qed.

Lemma GET_hit (id : string) (db : string -> option MemberRoute.Member)
    (t0 t1 t2 timestamp : Z) (file : option string) (st : MemberRoute.State)
    (data : MemberRoute.Body) :
  MemberRoute.fundingCache st !! id = Some (data, timestamp) ->
  (t0 - timestamp < MemberRoute.CACHE_DURATION)%Z ->
  MemberRoute.GET id db t0 t1 t2 file st
  = ({| MemberRoute.status := 200; MemberRoute.body := data |}, st, []).
Proof.
  intros Hc Ht. unfold MemberRoute.GET. rewrite Hc.
  now destruct (Z.ltb_spec (t0 - timestamp) MemberRoute.CACHE_DURATION);
    [| lia].
Qed.

Lemma loadGlobal_cache (file : option string) (st : MemberRoute.State) :
  MemberRoute.fundingCache (MemberRoute.loadGlobalFundingData file st).1.2
  = MemberRoute.fundingCache st.
Proof.
  unfold MemberRoute.loadGlobalFundingData.
  destruct (MemberRoute.globalFundingData st); [reflexivity |].
  now destruct file as [raw |]; [destruct (parseAllRecords raw) |].
Qed.

Lemma loadGlobal_once (file : option string) (st : MemberRoute.State)
    (data : list FinancialRecord) :
  MemberRoute.globalFundingData st = Some data ->
  MemberRoute.globalFundingData (MemberRoute.loadGlobalFundingData file st).1.2
  = Some data.
Proof.
  intros Hd. unfold MemberRoute.loadGlobalFundingData. now rewrite Hd.
Qed.

Lemma compute_cases (id : string) (db : string -> option MemberRoute.Member)
    (t1 t2 : Z) (file : option string) (st : MemberRoute.State) :
  let out := MemberRoute.compute id db t1 t2 file st in
  let st1 := (MemberRoute.loadGlobalFundingData file st).1.2 in
  (cacheable (MemberRoute.body out.1.1) = false /\
   (out.1.2 = st \/ out.1.2 = st1)) \/
  (cacheable (MemberRoute.body out.1.1) = true /\
   MemberRoute.status out.1.1 = 200%nat /\
   out.1.2
   = {| MemberRoute.globalFundingData := MemberRoute.globalFundingData st1;
        MemberRoute.fundingCache :=
          <[id := (MemberRoute.body out.1.1,
                   storeTime (MemberRoute.body out.1.1) t1 t2)]>
            (MemberRoute.fundingCache st1) |}).
Proof.
  cbn zeta. unfold MemberRoute.compute.
  destruct (db id) as [m |]; [| left; split; [reflexivity | now left]].
  destruct (MemberRoute.loadGlobalFundingData file st) as [[data st1] evs].
  cbn [fst snd].
  destruct (length data =? 0)%nat; [left; split; [reflexivity | now right] |].
  destruct (MemberRoute.memberRecords data m); right; now repeat split.
Qed.

End MemberCache.

(** X9: a result the member route has computed and stored is served again.
    When a GET that is not answered from the result cache returns a funding
    analysis or a "no records" result, every GET for the same member within
    thirty minutes of the stored clock reading returns the same body with
    status 200, reads nothing and changes nothing, whatever the member
    table and the data file hold by then. *)
Theorem result_cache_round_trip `{CampaignFinanceParser}
    (id : string) (db db' : string -> option MemberRoute.Member)
    (t0 t1 t2 t0' t1' t2' : Z) (file file' : option string)
    (st : MemberRoute.State) :
  let first := MemberRoute.GET id db t0 t1 t2 file st in
  resultCached t0 id st = false ->
  cacheable (MemberRoute.body first.1.1) = true ->
  (t0' - storeTime (MemberRoute.body first.1.1) t1 t2
   < MemberRoute.CACHE_DURATION)%Z ->
  MemberRoute.GET id db' t0' t1' t2' file' first.1.2
  = ({| MemberRoute.status := 200;
        MemberRoute.body := MemberRoute.body first.1.1 |}, first.1.2, []).
Proof.
  intros first Hmiss Hcacheable Hsoon. unfold first in *.
  rewrite GET_miss in * by assumption.
  destruct (compute_cases id db t1 t2 file st) as [[Hno _] | (_ & _ & Hst)];
    [congruence |].
  apply (GET_hit id db' t0' t1' t2'
           (storeTime
              (MemberRoute.body (MemberRoute.compute id db t1 t2 file st).1.1)
              t1 t2));
    [| exact Hsoon].
  rewrite (GET_miss id db t0 t1 t2 file st Hmiss), Hst.
  cbn [MemberRoute.fundingCache]. apply lookup_insert_eq.
Qed.

Lemma result_cache_round_trip_sample :
  let first :=
    @MemberRoute.GET sampleParser "S000001" members 0 10 20 (Some twoSmiths)
      MemberRoute.initial in
  (resultCached 0 "S000001" MemberRoute.initial = false /\
   cacheable (MemberRoute.body first.1.1) = true /\
   (1800019 - storeTime (MemberRoute.body first.1.1) 10 20
    < MemberRoute.CACHE_DURATION)%Z) /\
  @MemberRoute.GET sampleParser "S000001" (fun _ => None) 1800019 0 0 None
    first.1.2
  = ({| MemberRoute.status := 200;
        MemberRoute.body := MemberRoute.body first.1.1 |}, first.1.2, []).
Proof.
  intros first.
  assert (H1 : resultCached 0 "S000001" MemberRoute.initial = false)
    by reflexivity.
  assert (H2 : cacheable (MemberRoute.body first.1.1) = true)
    by (vm_compute; reflexivity).
  assert (H3 : (1800019 - storeTime (MemberRoute.body first.1.1) 10 20
                < MemberRoute.CACHE_DURATION)%Z) by (vm_compute; reflexivity).
  split; [repeat split; assumption |].
  exact (@result_cache_round_trip sampleParser "S000001" members (fun _ => None)
           0 10 20 1800019 0 0 (Some twoSmiths) None MemberRoute.initial
           H1 H2 H3).
Defined.

(** X10: a GET of the member route touches only its own member's entry.
    The cached results of other members are left as they are; a "member not
    found" or "data not available" answer stores nothing; and a parsed
    collection, once loaded, is never replaced. *)
Theorem member_GET_frame `{CampaignFinanceParser}
    (id other : string) (db : string -> option MemberRoute.Member)
    (t0 t1 t2 : Z) (file : option string) (st : MemberRoute.State) :
  other <> id ->
  let out := MemberRoute.GET id db t0 t1 t2 file st in
  MemberRoute.fundingCache out.1.2 !! other
  = MemberRoute.fundingCache st !! other /\
  (resultCached t0 id st = false ->
   cacheable (MemberRoute.body out.1.1) = false ->
   MemberRoute.fundingCache out.1.2 = MemberRoute.fundingCache st) /\
  (forall data, MemberRoute.globalFundingData st = Some data ->
                MemberRoute.globalFundingData out.1.2 = Some data).
Proof.
  intros Hother out.
  assert (Hcompute :
    let c := MemberRoute.compute id db t1 t2 file st in
    MemberRoute.fundingCache c.1.2 !! other
    = MemberRoute.fundingCache st !! other /\
    (cacheable (MemberRoute.body c.1.1) = false ->
     MemberRoute.fundingCache c.1.2 = MemberRoute.fundingCache st) /\
    (forall data, MemberRoute.globalFundingData st = Some data ->
                  MemberRoute.globalFundingData c.1.2 = Some data)).
  { cbn zeta.
    destruct (compute_cases id db t1 t2 file st)
      as [(Hno & [-> | ->]) | (Hyes & _ & ->)].
    - now repeat split.
    - rewrite loadGlobal_cache. repeat split. apply loadGlobal_once.
    - cbn [MemberRoute.fundingCache MemberRoute.globalFundingData].
      rewrite lookup_insert_ne, loadGlobal_cache by congruence.
      repeat split; [congruence | apply loadGlobal_once]. }
  unfold out, MemberRoute.GET, resultCached.
  destruct (MemberRoute.fundingCache st !! id) as [[data timestamp] |];
    [destruct (_ <? _)%Z |]; cbn [fst snd];
    destruct Hcompute as (H1 & H2 & H3); now repeat split.
Qed.

Lemma member_GET_frame_sample :
  "S000002"%string <> "S000001"%string /\
  MemberRoute.fundingCache
    (@MemberRoute.GET sampleParser "S000001" members 1800000 1800001 1800002
       None memberLoaded).1.2 !! "S000002"%string
  = MemberRoute.fundingCache memberLoaded !! "S000002"%string.
Proof.
  assert (H1 : "S000002"%string <> "S000001"%string) by discriminate.
  split; [exact H1 |].
  exact (proj1 (@member_GET_frame sampleParser "S000001" "S000002" members
                  1800000 1800001 1800002 None memberLoaded H1)).
Defined.

(** X14: an empty parse result sticks in the member route.  Once a file
    has parsed to the empty collection, every later request for a known
    member that is not answered from the result cache gets "data not
    available" without the file being read again, whatever the file holds
    by then; after a failed read, in contrast, the next request reads the
    file again. *)
Theorem empty_collection_sticks `{CampaignFinanceParser}
    (id id' : string) (db db' : string -> option MemberRoute.Member)
    (m m' : MemberRoute.Member) (t0 t1 t2 t0' t1' t2' : Z) (raw : string)
    (file' : option string) (st : MemberRoute.State) :
  MemberRoute.globalFundingData st = None ->
  parseAllRecords raw = Some [] ->
  db id = Some m ->
  db' id' = Some m' ->
  resultCached t0 id st = false ->
  resultCached t0' id' st = false ->
  let st1 := (MemberRoute.GET id db t0 t1 t2 (Some raw) st).1.2 in
  MemberRoute.GET id' db' t0' t1' t2' file' st1
  = ({| MemberRoute.status := 200;
        MemberRoute.body := MemberRoute.DataNotAvailable (MemberRoute.memberInfo m') |},
     st1, []) /\
  (MemberRoute.GET id' db' t0' t1' t2' (Some raw)
     (MemberRoute.GET id db t0 t1 t2 None st).1.2).2
  = [ReadFile; ParseAll raw].
Proof.
  intros Hnone Hparse Hdb Hdb' Hmiss Hmiss' st1.
  assert (Hst1 : st1 = {| MemberRoute.globalFundingData := Some [];
                          MemberRoute.fundingCache := MemberRoute.fundingCache st |}).
  { unfold st1. rewrite GET_miss by assumption.
    unfold MemberRoute.compute, MemberRoute.loadGlobalFundingData.
    now rewrite Hdb, Hnone, Hparse. }
  split.
  - rewrite GET_miss by (now rewrite Hst1).
    unfold MemberRoute.compute, MemberRoute.loadGlobalFundingData.
    now rewrite Hdb', Hst1.
  - assert (Hfail : (MemberRoute.GET id db t0 t1 t2 None st).1.2 = st).
    { rewrite GET_miss by assumption.
      unfold MemberRoute.compute, MemberRoute.loadGlobalFundingData.
      now rewrite Hdb, Hnone. }
    rewrite Hfail, GET_miss by assumption.
    unfold MemberRoute.compute, MemberRoute.loadGlobalFundingData.
    now rewrite Hdb', Hnone, Hparse.
Qed.

Lemma empty_collection_sticks_sample :
  (MemberRoute.globalFundingData MemberRoute.initial = None /\
   @parseAllRecords sampleParser "" = Some [] /\
   members "S000001"%string = Some johnSmith /\
   resultCached 0 "S000001" MemberRoute.initial = false) /\
  (@MemberRoute.GET sampleParser "S000001" members 5 5 5 (Some twoSmiths)
     (@MemberRoute.GET sampleParser "S000001" members 0 0 0 (Some ""%string)
        MemberRoute.initial).1.2).1.1
  = {| MemberRoute.status := 200;
       MemberRoute.body :=
         MemberRoute.DataNotAvailable (MemberRoute.memberInfo johnSmith) |}.
Proof.
  assert (H1 : MemberRoute.globalFundingData MemberRoute.initial = None)
    by reflexivity.
  assert (H2 : @parseAllRecords sampleParser "" = Some []) by reflexivity.
  assert (H3 : members "S000001"%string = Some johnSmith) by reflexivity.
  assert (H4 : resultCached 0 "S000001" MemberRoute.initial = false)
    by reflexivity.
  split; [repeat split; assumption |].
  rewrite (proj1 (@empty_collection_sticks sampleParser "S000001" "S000001"
                    members members johnSmith johnSmith 0 0 0 5 5 5 ""
                    (Some twoSmiths) MemberRoute.initial H1 H2 H3 H3 H4 H4)).
  reflexivity.
Defined.

(** ** The member route: the funding analysis *)

(** X11: the health status is decided in a fixed order.  It is "Concerning"
    exactly when the net position is negative, whatever the burn rate and
    the cash; otherwise "High Burn Rate" exactly when the burn rate is a
    number above 0.8; otherwise "Well Funded", "Adequate" or "Limited
    Resources" as the cash on hand is above 100,000, above 50,000 or not. *)
Theorem health_status_cases (h : FinancialHealth) :
  let s := MemberRoute.getFinancialHealthStatus h in
  (s = "Concerning"%string <-> netPosition h < 0) /\
  (s = "High Burn Rate"%string
   <-> 0 <= netPosition h /\ ngtb (burnRate h) (8 # 10) = true) /\
  (s = "Well Funded"%string
   <-> 0 <= netPosition h /\ ngtb (burnRate h) (8 # 10) = false /\
       100000 < cashOnHand h) /\
  (s = "Adequate"%string
   <-> 0 <= netPosition h /\ ngtb (burnRate h) (8 # 10) = false /\
       50000 < cashOnHand h <= 100000) /\
  (s = "Limited Resources"%string
   <-> 0 <= netPosition h /\ ngtb (burnRate h) (8 # 10) = false /\
       cashOnHand h <= 50000).
Proof.
  cbn zeta. unfold MemberRoute.getFinancialHealthStatus.
  destruct (Qle_bool 0 (netPosition h)) eqn:Hnet; cbn [negb].
  2: { assert (netPosition h < 0).
       { apply Qnot_le_lt. intros Hle. apply Qle_bool_iff in Hle. congruence. }
       repeat split; intros; try discriminate; try assumption;
         try reflexivity; try (exfalso; lra). }
  apply Qle_bool_iff in Hnet.
  destruct (ngtb (burnRate h) (8 # 10)).
  { repeat split; intros; try discriminate; try assumption; try reflexivity;
      try (exfalso; lra); try (destruct_and?; discriminate). }
  destruct (Qle_bool (cashOnHand h) 100000) eqn:Hbig; cbn [negb].
  2: { assert (100000 < cashOnHand h).
       { apply Qnot_le_lt. intros Hle. apply Qle_bool_iff in Hle. congruence. }
       repeat split; intros; try discriminate; try assumption;
         try reflexivity; try (exfalso; lra); try (destruct_and?; exfalso; lra). }
  apply Qle_bool_iff in Hbig.
  destruct (Qle_bool (cashOnHand h) 50000) eqn:Hmid; cbn [negb].
  2: { assert (50000 < cashOnHand h).
       { apply Qnot_le_lt. intros Hle. apply Qle_bool_iff in Hle. congruence. }
       repeat split; intros; try discriminate; try assumption;
         try reflexivity; try (exfalso; lra); try (destruct_and?; exfalso; lra). }
  apply Qle_bool_iff in Hmid.
  repeat split; intros; try discriminate; try assumption; try reflexivity;
    try (exfalso; lra); try (destruct_and?; exfalso; lra).
Qed.

(** X12: the historical data of a funding analysis never includes the
    primary record and never has more than three entries: it is built from
    the second to fourth matching records, as many as there are. *)
Theorem historical_data_bounds (primary : FinancialRecord)
    (rest : list FinancialRecord) :
  let history :=
    MemberRoute.historicalData
      (MemberRoute.fundingAnalysis (primary :: rest) primary) in
  history = MemberRoute.historicalEntry <$> take 3 rest /\
  length history = Nat.min 3 (length rest).
Proof.
  cbn zeta.
  assert (E : MemberRoute.historicalData
                (MemberRoute.fundingAnalysis (primary :: rest) primary)
              = MemberRoute.historicalEntry <$> take 3 rest).
  { unfold MemberRoute.fundingAnalysis. cbn [MemberRoute.historicalData].
    destruct rest as [| r rest]; reflexivity. }
  rewrite E, length_fmap, length_take. split; reflexivity.
Qed.

(** A party named like an inherited function is not counted: two records
    of party "constructor" and one of party "DEM" give a text entry and the
    count 1, and a record of party "__proto__" leaves no entry. *)
Example breakdown_of_inherited_keys :
  let r (p : string) :=
    {| candidateId := ""; candidateName := ""; party := p;
       incumbentStatus := ""; state := ""; district := ""; office := "";
       cycleNumber := 0; totalReceipts := 0; individualContributions := 0;
       partyContributions := 0; pacContributions := 0;
       candidateContributions := 0; candidateLoans := 0; otherLoans := 0;
       transfersFromAuthorized := 0; totalLoans := 0; totalDisbursements := 0;
       transfersToAuthorized := 0; beginningCash := 0; endingCash := 0;
       totalDebt := 0; coverageStartDate := ""; coverageEndDate := "" |} in
  let counts :=
    FundingRoute.countBy party
      [r "constructor"; r "DEM"; r "__proto__"; r "constructor"]%string in
  counts !! "constructor"%string = Some (FundingRoute.SourceAndOnes 2) /\
  counts !! "DEM"%string = Some (FundingRoute.Count 1) /\
  counts !! "__proto__"%string = None.
Proof. vm_compute. repeat split. Qed.
